(** * MMM-Fuel, provider [apis/tankerkoenig.js]

    A shallow embedding of the tankerkoenig provider and the properties of
    its retrieval-and-transform pipeline.

    Modelling choices.
    - A JavaScript number is an IEEE 754 binary64 value: Rocq's primitive
      [float].  [<=], [===] and [-] on numbers are [PrimFloat.leb],
      [PrimFloat.eqb] and [PrimFloat.sub] (so NaN and the two zeros behave
      as they do in the engine).
    - [Math.sin], [Math.cos], [Math.atan2] and [Number::toString] are
      implementation-approximated or long host algorithms: they are the
      fields of a [Host] record the provider is run against.  [Math.sqrt] is
      the correctly rounded square root, [Number.prototype.toFixed] is
      written out.
    - The geographic functions are written over a class of number
      operations, which the pipeline instantiates with [float] and a host.
    - The fuel-type keys of [config.types] and [config.sortBy] are the three
      keys [diesel], [e5] and [e10]; a price is a number; a postal code is a
      natural number; [ok] and [isOpen] are booleans.
    - Arrays are mutable and live in a store addressed by reference, so that
      [slice] really makes a second array and [sort] really works in place.
      An array slot holds its station object by value.  In area mode the
      array of the parsed response shares its objects with the filtered
      array, so the normalizer's writes reach them too; that array is not
      read again after the filter, and the store does not follow it: its
      contents in the store are those of the response as it arrived.
    - [fetch] is a capability of the environment: a state-passing function
      on an abstract world; every request is recorded in a trace. *)

From Stdlib Require Import ZArith List String Ascii Bool Floats Lia.
From Stdlib Require Import DecimalString DecimalPos Permutation.
From stdpp Require Import base list strings.
Import ListNotations.

Local Open Scope string_scope.
Local Open Scope list_scope.

(** ** JavaScript values used by the provider *)

Inductive JSValue : Type :=
| JSundefined
| JSnumber (x : float)
| JSstring (s : string).

Definition is_number (v : JSValue) : bool :=
  match v with JSnumber _ => true | _ => false end.

Definition is_string (v : JSValue) : bool :=
  match v with JSstring _ => true | _ => false end.

(** The fuel-type keys a station object is indexed with
    ([config.types[i]], [config.sortBy]). *)
Inductive FuelType : Type := diesel | e5 | e10.

(** [options] of the module: the process-wide [config]. *)
Record Config : Type := mkConfig {
  cfg_lat : float;
  cfg_lng : float;
  cfg_radius : float;
  cfg_api_key : string;
  cfg_sortBy : FuelType;
  cfg_types : list FuelType;
  cfg_showOpenOnly : bool;
  cfg_onlyStations : list string
}.

(** The [prices] object the normalizer attaches. *)
Record Prices : Type := mkPrices {
  p_diesel : float;
  p_e5 : float;
  p_e10 : float
}.

(** A station object.  The first thirteen fields come from the service;
    [st_dist] is present in an area response and absent ([JSundefined]) in a
    detail response; the last three are absent until [normalizeStations]
    writes them. *)
Record Station : Type := mkStation {
  st_id : string;
  st_name : string;
  st_brand : string;
  st_street : string;
  st_houseNumber : string;
  st_postCode : N;
  st_place : string;
  st_lat : float;
  st_lng : float;
  st_isOpen : bool;
  st_diesel : float;
  st_e5 : float;
  st_e10 : float;
  st_dist : JSValue;
  st_prices : option Prices;
  st_distance : JSValue;
  st_address : option string
}.

(** [station[t]] for a fuel-type key [t]. *)
Definition price_of (t : FuelType) (s : Station) : float :=
  match t with
  | diesel => st_diesel s
  | e5 => st_e5 s
  | e10 => st_e10 s
  end.

(** [station.dist = v] *)
Definition set_dist (v : JSValue) (s : Station) : Station :=
  mkStation (st_id s) (st_name s) (st_brand s) (st_street s) (st_houseNumber s)
    (st_postCode s) (st_place s) (st_lat s) (st_lng s) (st_isOpen s)
    (st_diesel s) (st_e5 s) (st_e10 s) v (st_prices s) (st_distance s)
    (st_address s).

(** [station.prices = p] *)
Definition set_prices (p : Prices) (s : Station) : Station :=
  mkStation (st_id s) (st_name s) (st_brand s) (st_street s) (st_houseNumber s)
    (st_postCode s) (st_place s) (st_lat s) (st_lng s) (st_isOpen s)
    (st_diesel s) (st_e5 s) (st_e10 s) (st_dist s) (Some p) (st_distance s)
    (st_address s).

(** [station.distance = v] *)
Definition set_distance (v : JSValue) (s : Station) : Station :=
  mkStation (st_id s) (st_name s) (st_brand s) (st_street s) (st_houseNumber s)
    (st_postCode s) (st_place s) (st_lat s) (st_lng s) (st_isOpen s)
    (st_diesel s) (st_e5 s) (st_e10 s) (st_dist s) (st_prices s) v
    (st_address s).

(** [station.address = a] *)
Definition set_address (a : string) (s : Station) : Station :=
  mkStation (st_id s) (st_name s) (st_brand s) (st_street s) (st_houseNumber s)
    (st_postCode s) (st_place s) (st_lat s) (st_lng s) (st_isOpen s)
    (st_diesel s) (st_e5 s) (st_e10 s) (st_dist s) (st_prices s)
    (st_distance s) (Some a).

(** ** Price Sorter *)

(** [Number.MIN_SAFE_INTEGER] and [Number.MAX_SAFE_INTEGER]: -(2^53 - 1) and
    2^53 - 1. *)
Definition MIN_SAFE_INTEGER : float := (-9007199254740991)%float.
Definition MAX_SAFE_INTEGER : float := 9007199254740991%float.

(** [sortByPrice(a, b)] *)
Definition sortByPrice (config : Config) (a b : Station) : float :=
  if PrimFloat.eqb (price_of (cfg_sortBy config) b) 0%float then
    MIN_SAFE_INTEGER
  else if PrimFloat.eqb (price_of (cfg_sortBy config) a) 0%float then
    MAX_SAFE_INTEGER
  else
    PrimFloat.sub (price_of (cfg_sortBy config) a)
                  (price_of (cfg_sortBy config) b).

(** What [Array.prototype.sort] makes of a comparator's result. *)
Definition sorts_before (v : float) : Prop := PrimFloat.ltb v 0%float = true.
Definition sorts_after (v : float) : Prop := PrimFloat.ltb 0%float v = true.

(** ** Station Filter *)

(** The test in the body of both filter loops. *)
Definition rejects (config : Config) (station : Station) (t : FuelType) : bool :=
  PrimFloat.leb (price_of t station) 0%float
  || (cfg_showOpenOnly config && negb (st_isOpen station)).

(** The loop of [filterStations], from index [i] on: [types] is the part of
    [config.types] that is still to be visited. *)
Fixpoint filterStations_loop (config : Config) (station : Station)
    (types : list FuelType) : bool :=
  match types with
  | [] => true
  | t :: rest =>
      if PrimFloat.leb (price_of t station) 0%float
         || (cfg_showOpenOnly config && negb (st_isOpen station))
      then false
      else filterStations_loop config station rest
  end.

(** [filterStations(station)] *)
Definition filterStations (config : Config) (station : Station) : bool :=
  filterStations_loop config station (cfg_types config).

(** The loop of [checkStation]. *)
Fixpoint checkStation_loop (config : Config) (station : Station)
    (types : list FuelType) : bool :=
  match types with
  | [] => true
  | t :: rest =>
      if PrimFloat.leb (price_of t station) 0%float
         || (cfg_showOpenOnly config && negb (st_isOpen station))
      then false
      else checkStation_loop config station rest
  end.

(** [checkStation(station)] *)
Definition checkStation (config : Config) (station : Station) : bool :=
  checkStation_loop config station (cfg_types config).

(** The Station Filter as the specification words it: a station is excluded
    when some required type has a price that is not positive, or when only
    open stations are wanted and this one is not open. *)
Definition excluded_by_spec (config : Config) (station : Station) : Prop :=
  (exists t, In t (cfg_types config)
             /\ PrimFloat.leb (price_of t station) 0%float = true)
  \/ (cfg_showOpenOnly config = true /\ st_isOpen station = false).

(** ** Geo Math *)

(** The operations on numbers the geographic functions use.  [lit] reads an
    integer literal of the source. *)
Class NumOps (num : Type) : Type := {
  lit : Z -> num;
  n_add : num -> num -> num;
  n_sub : num -> num -> num;
  n_mul : num -> num -> num;
  n_div : num -> num -> num;
  Math_PI : num;
  Math_sqrt : num -> num;
  Math_sin : num -> num;
  Math_cos : num -> num;
  Math_atan2 : num -> num -> num
}.

Declare Scope num_scope.
Delimit Scope num_scope with num.
Infix "+" := n_add : num_scope.
Infix "-" := n_sub : num_scope.
Infix "*" := n_mul : num_scope.
Infix "/" := n_div : num_scope.

(** An object with a [lat] and a [lng] property, in degrees. *)
Record Pos (num : Type) : Type := mkPos { lat : num; lng : num }.
Arguments mkPos {num} lat lng.
Arguments lat {num} p.
Arguments lng {num} p.

Section GeoMath.
Context {num : Type} `{NumOps num}.
Local Open Scope num_scope.

(** Earth radius in meter. *)
Definition earth : num := lit 6371000.

(** [deg2rad(degrees)] *)
Definition deg2rad (degrees : num) : num :=
  let pi := Math_PI in
  degrees * (pi / lit 180).

(** [getDistance(pos1, pos2)] *)
Definition getDistance (pos1 pos2 : Pos num) : num :=
  let dLat := deg2rad (lat pos2 - lat pos1) in
  let dLon := deg2rad (lng pos2 - lng pos1) in
  let distance :=
    Math_sin (dLat / lit 2) * Math_sin (dLat / lit 2) +
    Math_cos (deg2rad (lat pos1)) * Math_cos (deg2rad (lat pos2)) *
    Math_sin (dLon / lit 2) * Math_sin (dLon / lit 2) in
  let c := lit 2 * Math_atan2 (Math_sqrt distance) (Math_sqrt (lit 1 - distance)) in
  earth * c / lit 1000.
End GeoMath.

(** *** The engine's numbers *)

(** The builtins whose results the language leaves to the implementation
    ([Math.sin], [Math.cos], [Math.atan2]) and the number-to-string
    conversion. *)
Record Host : Type := mkHost {
  host_sin : float -> float;
  host_cos : float -> float;
  host_atan2 : float -> float -> float;
  Number_toString : float -> string
}.

(** An integer literal as a binary64 value (exact below 2^53). *)
Definition float_of_Z (z : Z) : float :=
  match z with
  | Z0 => 0%float
  | Zpos _ => PrimFloat.of_uint63 (Uint63.of_Z z)
  | Zneg p => PrimFloat.opp (PrimFloat.of_uint63 (Uint63.of_Z (Zpos p)))
  end.

#[export] Instance float_ops (h : Host) : NumOps float := {|
  lit := float_of_Z;
  n_add := PrimFloat.add;
  n_sub := PrimFloat.sub;
  n_mul := PrimFloat.mul;
  n_div := PrimFloat.div;
  Math_PI := 0x1.921fb54442d18p+1%float;
  Math_sqrt := PrimFloat.sqrt;
  Math_sin := host_sin h;
  Math_cos := host_cos h;
  Math_atan2 := host_atan2 h
|}.

(** A value is finite when it is neither NaN nor an infinity. *)
Definition isFinite (x : float) : bool :=
  match Prim2SF x with
  | S754_zero _ | S754_finite _ _ _ => true
  | _ => false
  end.

(** ** Number.prototype.toFixed *)

(** The decimal digits of a natural number. *)
Definition N_toString (n : N) : string :=
  NilEmpty.string_of_uint (N.to_uint n).

(** The integer [n] for which [n / 10^f - m * 2^e] is closest to zero, the
    larger one when there are two. *)
Definition nearest_scaled (m : positive) (e : Z) (f : nat) : Z :=
  let scaled := (Zpos m * 10 ^ Z.of_nat f)%Z in
  if (0 <=? e)%Z then (scaled * 2 ^ e)%Z
  else ((2 * scaled + 2 ^ (- e)) / (2 * 2 ^ (- e)))%Z.

Fixpoint zeros (k : nat) : string :=
  match k with
  | O => ""
  | S k' => "0" +:+ zeros k'
  end.

(** The digits of [n] with a decimal point before the last [f] of them. *)
Definition fixed_digits (n : Z) (f : nat) : string :=
  let m := N_toString (Z.to_N n) in
  match f with
  | O => m
  | S _ =>
      let k := String.length m in
      let m' := if (k <=? f)%nat then zeros (f + 1 - k) +:+ m else m in
      let k' := String.length m' in
      substring 0 (k' - f) m' +:+ "." +:+ substring (k' - f) f m'
  end.

(** [x.toFixed(fractionDigits)] *)
Definition toFixed (h : Host) (x : float) (fractionDigits : nat) : string :=
  match Prim2SF x with
  | S754_nan | S754_infinity _ => Number_toString h x
  | S754_zero _ => fixed_digits 0 fractionDigits
  | S754_finite sgn m e =>
      let s := if sgn then "-" else "" in
      if PrimFloat.leb 1e21%float (PrimFloat.abs x)
      then s +:+ Number_toString h (PrimFloat.abs x)
      else s +:+ fixed_digits (nearest_scaled m e fractionDigits) fractionDigits
  end.

(** ** Strings *)

(** [s.slice(start)] *)
Definition String_slice (s : string) (start : Z) : string :=
  let len := Z.of_nat (String.length s) in
  let from := if (start <? 0)%Z then Z.max (len + start) 0 else Z.min start len in
  substring (Z.to_nat from) (Z.to_nat (len - from)) s.

(** The postal code written with five digits, zeros first. *)
Definition zero_padded5 (n : N) : string :=
  zeros (5 - String.length (N_toString n)) +:+ N_toString n.

(** ** URL Builder *)

Definition BASE_URL : string :=
  "https://creativecommons.tankerkoenig.de/json/list.php".
Definition BASE_URL_DETAIL : string :=
  "https://creativecommons.tankerkoenig.de/json/detail.php".

(** [generateUrl()] *)
Definition generateUrl (h : Host) (config : Config) : string :=
  BASE_URL +:+ "?lat=" +:+ Number_toString h (cfg_lat config)
  +:+ "&lng=" +:+ Number_toString h (cfg_lng config)
  +:+ "&rad=" +:+ Number_toString h (cfg_radius config)
  +:+ "&type=all&apikey=" +:+ cfg_api_key config +:+ "&sort=dist".

(** [generateUrlDetail(id)] *)
Definition generateUrlDetail (config : Config) (id : string) : string :=
  BASE_URL_DETAIL +:+ "?id=" +:+ id +:+ "&apikey=" +:+ cfg_api_key config.

(** ** Array.prototype.sort *)

(** The order in which an engine calls the comparator is its own, and with
    a comparator that is not consistent (as [sortByPrice] is not when a price
    is zero) so is the order of the result.  The model is an insertion sort:
    each element moves left past the elements [tmp] with
    [comparefn(tmp, element) > 0]; the sorted prefix is kept reversed, nearest
    element first.  Of the sorted array only what every engine guarantees is
    used: it holds the elements it held before. *)
Fixpoint insert_left {A : Type} (comparefn : A -> A -> float) (element : A)
    (rev_prefix : list A) : list A :=
  match rev_prefix with
  | [] => [element]
  | tmp :: rest =>
      if PrimFloat.ltb 0%float (comparefn tmp element)
      then tmp :: insert_left comparefn element rest
      else element :: tmp :: rest
  end.

Definition insertion_sort {A : Type} (comparefn : A -> A -> float)
    (l : list A) : list A :=
  rev (fold_left (fun acc x => insert_left comparefn x acc) l []).

(** ** The environment: responses, exceptions, the array store *)

(** The payload of a parsed response: [stations] (area endpoint), [station]
    (detail endpoint), or neither. *)
Inductive Body : Type :=
| Stations (l : list Station)
| Detail (s : Station)
| NoBody.

(** A parsed JSON response with its boolean [ok] field. *)
Record Response : Type := mkResponse { ok : bool; body : Body }.

(** What [fetch(url)] followed by [response.json()] comes to: a transport or
    parsing failure, or a parsed response. *)
Inductive FetchResult : Type :=
| Failed (reason : string)
| Parsed (r : Response).

(** What the provider can throw. *)
Inductive Exn : Type :=
| Error (message : string)
| TypeError
| Rejected (reason : string).

(** A request and what came back. *)
Definition Event : Type := string * FetchResult.

(** A reference to an array of the store: its index. *)
Abbreviation ref := nat.

(** The object [getData] returns; its two sequences are references. *)
Record Result : Type := mkResult {
  res_types : list string;
  res_unit : string;
  res_currency : string;
  byPrice : ref;
  byDistance : ref
}.

Inductive Outcome (A : Type) : Type :=
| Returned (a : A)
| Thrown (e : Exn).
Arguments Returned {A} a.
Arguments Thrown {A} e.

Section Provider.
Variable World : Type.
Variable fetch : string -> World -> FetchResult * World.
Variable host : Host.
Variable config : Config.

Record State : Type := mkState {
  world : World;
  trace : list Event;
  heap : list (list Station)
}.

(** Computations that read and write the state and may throw. *)
Definition M (A : Type) : Type := State -> Outcome A * State.

Definition ret {A : Type} (a : A) : M A := fun s => (Returned a, s).

Definition throw {A : Type} (e : Exn) : M A := fun s => (Thrown e, s).

Definition bind {A B : Type} (c : M A) (k : A -> M B) : M B :=
  fun s =>
    match c s with
    | (Returned a, s') => k a s'
    | (Thrown e, s') => (Thrown e, s')
    end.

Local Notation "x <- c1 ;; c2" := (bind c1 (fun x => c2))
  (at level 100, c1 at next level, right associativity).
Local Notation "c1 ;; c2" := (bind c1 (fun _ => c2))
  (at level 100, right associativity).

(** [await fetch(url)] and [await response.json()], recorded in the trace. *)
Definition fetch_json (url : string) : M Response :=
  fun s =>
    let (r, w) := fetch url (world s) in
    let s' := mkState w (trace s ++ [(url, r)]) (heap s) in
    match r with
    | Failed reason => (Thrown (Rejected reason), s')
    | Parsed parsedResponse => (Returned parsedResponse, s')
    end.

(** A new array with the given elements. *)
Definition new_array (l : list Station) : M ref :=
  fun s => (Returned (length (heap s)),
            mkState (world s) (trace s) (heap s ++ [l])).

Definition read_array (a : ref) : M (list Station) :=
  fun s =>
    match heap s !! a with
    | Some l => (Returned l, s)
    | None => (Thrown TypeError, s)
    end.

Definition write_array (a : ref) (l : list Station) : M unit :=
  fun s =>
    match heap s !! a with
    | Some _ => (Returned tt, mkState (world s) (trace s) (<[a := l]> (heap s)))
    | None => (Thrown TypeError, s)
    end.

(** [a.filter(p)] *)
Definition Array_filter (a : ref) (p : Station -> bool) : M ref :=
  l <- read_array a ;; new_array (List.filter p l).

(** [a.slice(start)] *)
Definition Array_slice (a : ref) (start : nat) : M ref :=
  l <- read_array a ;; new_array (drop start l).

(** [a.push(x)] *)
Definition Array_push (a : ref) (x : Station) : M unit :=
  l <- read_array a ;; write_array a (l ++ [x]).

(** [a.sort(comparefn)] *)
Definition Array_sort (a : ref) (comparefn : Station -> Station -> float)
    : M unit :=
  l <- read_array a ;; write_array a (insertion_sort comparefn l).

(** [a[i].field = v], with [f] the update of the field; an [i] past the end
    reads [undefined], whose property cannot be set. *)
Definition elem_update (a : ref) (i : nat) (f : Station -> Station) : M unit :=
  l <- read_array a ;;
  match l !! i with
  | Some x => write_array a (<[i := f x]> l)
  | None => throw TypeError
  end.

(** The loop of [a.forEach(callback)], at index [k] with [n] indices to
    go. *)
Fixpoint forEach_loop (a : ref) (callback : Station -> nat -> ref -> M unit)
    (k n : nat) : M unit :=
  match n with
  | O => ret tt
  | S n' =>
      l <- read_array a ;;
      match l !! k with
      | Some value => callback value k a
      | None => ret tt
      end ;;
      forEach_loop a callback (S k) n'
  end.

(** [a.forEach(callback)] *)
Definition Array_forEach (a : ref)
    (callback : Station -> nat -> ref -> M unit) : M unit :=
  l <- read_array a ;; forEach_loop a callback 0 (length l).

(** ** Normalizer *)

(** The [address] string built from a station. *)
Definition address_of (value : Station) : string :=
  String_slice ("0" +:+ N_toString (st_postCode value)) (-5)
  +:+ " " +:+ st_place value +:+ " - " +:+ st_street value
  +:+ " " +:+ st_houseNumber value.

(** [normalizeStations(value, index, stations)].  [value] is the object at
    [stations[index]]; the three properties written are not among those
    read. *)
Definition normalizeStations (value : Station) (index : nat) (stations : ref)
    : M unit :=
  elem_update stations index
    (set_prices (mkPrices (st_diesel value) (st_e5 value) (st_e10 value))) ;;
  elem_update stations index (set_distance (st_dist value)) ;;
  elem_update stations index (set_address (address_of value)).

(** ** Pipeline Orchestrator *)

(** [parsedResponse.stations], an array of the store. *)
Definition response_stations (parsedResponse : Response) : M ref :=
  match body parsedResponse with
  | Stations l => new_array l
  | _ => throw TypeError
  end.

(** [parsedResponse.station] as [checkStation] and [getDistance] use it:
    reading a property of a missing station throws. *)
Definition response_station (parsedResponse : Response) : M Station :=
  match body parsedResponse with
  | Detail s => ret s
  | _ => throw TypeError
  end.

(** [{"lat": config.lat, "lng": config.lng}] *)
Definition origin : Pos float := mkPos (cfg_lat config) (cfg_lng config).

(** A station read as a position. *)
Definition position (station : Station) : Pos float :=
  mkPos (st_lat station) (st_lng station).

(** [getDistance(station, origin).toFixed(1)] *)
Definition local_dist (station : Station) : JSValue :=
  JSstring (toFixed host (getDistance (H := float_ops host)
                            (position station) origin) 1).

(** The [for] loop of detail mode, over the identifiers still to visit. *)
Fixpoint detail_loop (stations : ref) (ids : list string) : M unit :=
  match ids with
  | [] => ret tt
  | id :: rest =>
      parsedResponse <- fetch_json (generateUrlDetail config id) ;;
      (if negb (ok parsedResponse)
       then throw (Error "Error no fuel data or station id not found")
       else
         station <- response_station parsedResponse ;;
         if checkStation config station
         then Array_push stations (set_dist (local_dist station) station)
         else ret tt) ;;
      detail_loop stations rest
  end.

(** The first part of [getData]: the filtered stations of either mode. *)
Definition getData_stations : M ref :=
  if (length (cfg_onlyStations config) <? 1)%nat then
    parsedResponse <- fetch_json (generateUrl host config) ;;
    if negb (ok parsedResponse)
    then throw (Error "Error no fuel data")
    else
      all <- response_stations parsedResponse ;;
      Array_filter all (filterStations config)
  else
    stations <- new_array [] ;;
    detail_loop stations (cfg_onlyStations config) ;;
    ret stations.

(** The second part of [getData]: normalize in place, copy, sort the copy,
    build the result. *)
Definition getData_finish (stations : ref) : M Result :=
  Array_forEach stations normalizeStations ;;
  price <- Array_slice stations 0 ;;
  Array_sort price (sortByPrice config) ;;
  ret (mkResult ["diesel"; "e5"; "e10"] "km" "EUR" price stations).

(** [getData()] *)
Definition getData : M Result :=
  stations <- getData_stations ;;
  getData_finish stations.

(** [getData()] up to and including the normalization, before the copy
    is made and sorted. *)
Definition getData_unsorted : M ref :=
  stations <- getData_stations ;;
  Array_forEach stations normalizeStations ;;
  ret stations.

(** What the three assignments of [normalizeStations] make of one
    station. *)
Definition normalized (value : Station) : Station :=
  set_address (address_of value)
    (set_distance (st_dist value)
       (set_prices (mkPrices (st_diesel value) (st_e5 value) (st_e10 value))
          value)).

(** A detail station with its [dist] property set. *)
Definition located (station : Station) : Station :=
  set_dist (local_dist station) station.

(** The exception a detail request ends the loop with, if any. *)
Definition detail_exn (ev : Event) : option Exn :=
  match snd ev with
  | Failed reason => Some (Rejected reason)
  | Parsed parsedResponse =>
      if negb (ok parsedResponse)
      then Some (Error "Error no fuel data or station id not found")
      else match body parsedResponse with
           | Detail _ => None
           | _ => Some TypeError
           end
  end.

(** The station a successful detail request delivered. *)
Definition detail_station (ev : Event) : option Station :=
  match snd ev with
  | Failed _ => None
  | Parsed parsedResponse =>
      if negb (ok parsedResponse) then None
      else match body parsedResponse with
           | Detail s => Some s
           | _ => None
           end
  end.

(** The stations detail mode retains from a sequence of requests, in the
    order of the requests. *)
Definition retained (evs : list Event) : list Station :=
  map located (List.filter (checkStation config) (omap detail_station evs)).

(** The message of the error a response that is not [ok] raises. *)
Definition no_data_message : string :=
  if (length (cfg_onlyStations config) <? 1)%nat
  then "Error no fuel data"
  else "Error no fuel data or station id not found".

(** The state a call starts in. *)
Definition initial (w : World) : State := mkState w [] [].

(** The contents of an array of a state. *)
Definition contents (s : State) (a : ref) : list Station :=
  match heap s !! a with
  | Some l => l
  | None => []
  end.
End Provider.

Arguments world {World} s.
Arguments trace {World} s.
Arguments heap {World} s.
Arguments mkState {World} world trace heap.
Arguments initial {World} w.
Arguments contents {World} s a.

(** ** Sample data

    A host and a few stations to run the provider on.  The host's
    trigonometric functions are low-order Taylor polynomials and its
    [toString] prints integral values; they agree with every engine on the
    arguments used below (zero for the trigonometric functions, where the
    language fixes the results, and integers for [toString]). *)

Definition sample_host : Host := {|
  host_sin := fun x => (x - x * x * x / 6)%float;
  host_cos := fun x => (1 - x * x / 2)%float;
  host_atan2 := fun y x => (y / x)%float;
  Number_toString := fun x =>
    match Prim2SF x with
    | S754_nan => "NaN"
    | S754_infinity false => "Infinity"
    | S754_infinity true => "-Infinity"
    | S754_zero _ => "0"
    | S754_finite sgn m e =>
        (if sgn then "-" else "") +:+ N_toString (Z.to_N (nearest_scaled m e 0))
    end
|}.

(** A raw station as the service sends it. *)
Definition raw_station (id : string) (postCode : N) (lat lng : float)
    (isOpen : bool) (diesel_price : float) (dist : JSValue) : Station :=
  mkStation id "Station" "Brand" "Bar" "4" postCode "Foo" lat lng isOpen
    diesel_price 1.5%float 1.25%float dist None JSundefined None.

(** A world that answers the [n]-th request with the [n]-th response of a
    script, whatever the URL. *)
Definition scripted (responses : list FetchResult) (url : string) (n : nat)
    : FetchResult * nat :=
  (nth n responses (Failed "no response"), S n).

Definition detail_ok (s : Station) : FetchResult :=
  Parsed (mkResponse true (Detail s)).

Definition not_ok : FetchResult := Parsed (mkResponse false NoBody).

Definition sample_config (types : list FuelType) (onlyStations : list string)
    : Config :=
  mkConfig 0%float 0%float 5%float "KEY" diesel types true onlyStations.

(** Stations at the configured origin of [sample_config]. *)
Definition station_a : Station :=
  raw_station "a" 1067 0%float 0%float true 1.5%float JSundefined.
Definition station_b : Station :=
  raw_station "b" 10115 0%float 0%float true 1.25%float JSundefined.

(** The station of the specification's address example. *)
Definition station_foo : Station :=
  raw_station "foo" 123 0%float 0%float true 1.5%float (JSnumber 0.5%float).

(** Two detail responses; the same with a refusal in between; an area
    response with one station that reports no diesel price. *)
Definition detail_script : list FetchResult :=
  [detail_ok station_a; detail_ok station_b].
Definition refusing_script : list FetchResult :=
  [detail_ok station_a; not_ok; detail_ok station_b].
Definition area_script : list FetchResult :=
  [Parsed (mkResponse true (Stations
     [raw_station "x" 1067 0%float 0%float true 1.5%float (JSnumber 0.5%float);
      raw_station "y" 10115 0%float 0%float true 0%float (JSnumber 1.5%float);
      raw_station "z" 99999 0%float 0%float true 1.25%float (JSnumber 2.5%float)]))].

(** ** Checking a range of postal codes *)

(** [P] holds of [lo], [lo + 1], ..., [lo + count - 1]. *)
Definition all_from (P : N -> bool) (lo count : N) : bool :=
  snd (N.iter count
         (fun st => (N.succ (fst st), snd st && P (fst st))) (lo, true)).

(** The five characters kept of ["0"] followed by the code are the code
    padded with zeros to five digits. *)
Definition padded_by_slice (n : N) : bool :=
  String.eqb (String_slice ("0" +:+ N_toString n) (-5)) (zero_padded5 n).

(** ** Reading a trace *)

(** The stations a request delivered. *)
Definition delivered (ev : Event) : list Station :=
  match snd ev with
  | Failed _ => []
  | Parsed parsedResponse =>
      if ok parsedResponse then
        match body parsedResponse with
        | Stations l => l
        | Detail s => [s]
        | NoBody => []
        end
      else []
  end.

(** What a request makes the call throw, if anything: a failure is thrown
    on, a response that is not [ok] raises the error of the mode, and an [ok]
    response without the property the mode reads raises a [TypeError]. *)
Definition request_exn (config : Config) (ev : Event) : option Exn :=
  match snd ev with
  | Failed reason => Some (Rejected reason)
  | Parsed parsedResponse =>
      if negb (ok parsedResponse) then Some (Error (no_data_message config))
      else if (length (cfg_onlyStations config) <? 1)%nat then
        match body parsedResponse with
        | Stations _ => None
        | _ => Some TypeError
        end
      else
        match body parsedResponse with
        | Detail _ => None
        | _ => Some TypeError
        end
  end.

(** A delivered station as it enters the array of its mode: as it is in
    area mode, with its [dist] set in detail mode. *)
Definition as_pushed (host : Host) (config : Config) (raw : Station) : Station :=
  if (length (cfg_onlyStations config) <? 1)%nat then raw
  else located host config raw.

(** The thirteen properties of a raw station are the same in both. *)
Definition same_raw (x raw : Station) : Prop :=
  st_id x = st_id raw /\ st_name x = st_name raw /\ st_brand x = st_brand raw
  /\ st_street x = st_street raw /\ st_houseNumber x = st_houseNumber raw
  /\ st_postCode x = st_postCode raw /\ st_place x = st_place raw
  /\ st_lat x = st_lat raw /\ st_lng x = st_lng raw
  /\ st_isOpen x = st_isOpen raw
  /\ st_diesel x = st_diesel raw /\ st_e5 x = st_e5 raw
  /\ st_e10 x = st_e10 raw.

(** ** Decimal digits *)

(** Every character of [s] is one of ["0"], ..., ["9"]. *)
Fixpoint all_digits (s : string) : bool :=
  match s with
  | EmptyString => true
  | String c rest =>
      (48 <=? nat_of_ascii c)%nat && (nat_of_ascii c <=? 57)%nat
      && all_digits rest
  end.

(** ** Sample data away from the origin *)

(** The value of [table] at [x], or [default x] when [x] is not listed. *)
Definition tabulated (table : list (float * float)) (default : float -> float)
    (x : float) : float :=
  match List.find (fun entry => PrimFloat.eqb (fst entry) x) table with
  | Some entry => snd entry
  | None => default x
  end.

(** A host that returns the correctly rounded sine, cosine and arc tangent
    at the arguments [getDistance] passes for the two pairs of points used
    below ((52.52, 13.41) with (52.5, 13.4), and (2.255, 0) with
    (-2.255, 180)); elsewhere it is [sample_host].  Each entry of a table
    is an argument and the binary64 value nearest to the function's value
    there.  An arc tangent with a NaN argument is NaN, as the language
    requires. *)
Definition rounding_host : Host := {|
  host_sin := tabulated
    [((-0x1.6e05a695f857fp-13)%float, (-0x1.6e05a676cb195p-13)%float);
     ((-0x1.6e05a695f8107p-14)%float, (-0x1.6e05a68e2cc0cp-14)%float);
     ((-0x1.4269fa3d1a0a1p-5)%float, (-0x1.4254abb75e347p-5)%float);
     (0x1.921fb54442d18p+0%float, 0x1p+0%float)]
    (host_sin sample_host);
  host_cos := tabulated
    [(0x1.d552bed9cb5e2p-1%float, 0x1.378b466a38661p-1%float);
     (0x1.d524fe24f89f2p-1%float, 0x1.37af93f9513eap-1%float);
     (0x1.4269fa3d1a0a1p-5%float, 0x1.ff9a7fa96038bp-1%float);
     ((-0x1.4269fa3d1a0a1p-5)%float, 0x1.ff9a7fa96038bp-1%float)]
    (host_cos sample_host);
  host_atan2 := fun y x =>
    if PrimFloat.eqb y 0x1.7e983ed01ad87p-13%float
       && PrimFloat.eqb x 0x1.ffffff710d527p-1%float
    then 0x1.7e983ef3b608dp-13%float
    else host_atan2 sample_host y x;
  Number_toString := Number_toString sample_host
|}.

(** An origin in Berlin and a station some two kilometers from it. *)
Definition berlin_config (types : list FuelType) (onlyStations : list string)
    : Config :=
  mkConfig 52.5%float 0x1.acccccccccccdp+3%float 5%float "KEY" diesel types true
    onlyStations.

Definition station_near : Station :=
  raw_station "n" 10115 0x1.a428f5c28f5c3p+5%float 0x1.ad1eb851eb852p+3%float
    true 1.5%float JSundefined.

(** Two antipodal points: (2.255, 0) and (-2.255, 180). *)
Definition point_east : Pos float := mkPos 0x1.20a3d70a3d70ap+1%float 0%float.
Definition point_west : Pos float :=
  mkPos (-0x1.20a3d70a3d70ap+1)%float 180%float.

(** A host whose sine is an odd polynomial. *)
Definition odd_sine_host : Host := {|
  host_sin := fun x => (x * (1 - x * x / 6))%float;
  host_cos := host_cos sample_host;
  host_atan2 := host_atan2 sample_host;
  Number_toString := Number_toString sample_host
|}.

(** A closed station, and a configuration that wants open stations only and
    requires no fuel type. *)
Definition station_closed : Station :=
  raw_station "c" 1067 0%float 0%float false 1.5%float JSundefined.

Definition open_only_config : Config :=
  mkConfig 0%float 0%float 5%float "KEY" diesel [] true [].

(** ** Sample calls *)

Definition area_call : Outcome Result * State nat :=
  getData nat (scripted area_script) sample_host
    (sample_config [diesel] []) (initial 0).

Definition detail_call : Outcome Result * State nat :=
  getData nat (scripted detail_script) sample_host
    (sample_config [diesel] ["a"; "b"]) (initial 0).

(** The second of three detail requests times out. *)
Definition failing_call : Outcome Result * State nat :=
  getData nat (scripted [detail_ok station_a; Failed "timeout"]) sample_host
    (sample_config [diesel] ["a"; "b"; "c"]) (initial 0).

(** The area response is [ok] and has no [stations]. *)
Definition bare_call : Outcome Result * State nat :=
  getData nat (scripted [Parsed (mkResponse true NoBody)]) sample_host
    (sample_config [diesel] []) (initial 0).

(** The one station delivered is closed and only open ones are wanted. *)
Definition closed_call : Outcome Result * State nat :=
  getData nat
    (scripted [detail_ok (raw_station "c" 1067 0%float 0%float false
                            1.5%float JSundefined)])
    sample_host (sample_config [diesel] ["c"]) (initial 0).

(** Detail mode, one station near the origin in Berlin. *)
Definition near_call : Outcome Result * State nat :=
  getData nat (scripted [detail_ok station_near]) rounding_host
    (berlin_config [diesel] ["n"]) (initial 0).

(** ** Station Filter: properties *)

Lemma filterStations_loop_false config station types :
  filterStations_loop config station types = false <->
  (exists t, In t types /\ PrimFloat.leb (price_of t station) 0%float = true)
  \/ (types <> [] /\ cfg_showOpenOnly config = true /\ st_isOpen station = false).
Proof.
  induction types as [|t rest IH]; simpl.
  - split; [discriminate|].
    intros [[t [[] _]]|[Hne _]]. now elim Hne.
  - destruct (PrimFloat.leb (price_of t station) 0%float) eqn:Hp; simpl.
    + split; [|reflexivity]. intros _. left. exists t. auto.
    + destruct (cfg_showOpenOnly config) eqn:Ho; simpl.
      * destruct (st_isOpen station) eqn:Hs; simpl.
        -- rewrite IH. split.
           ++ intros [[u [Hin Hu]]|[_ [_ Hc]]]; [|discriminate].
              left. exists u. auto.
           ++ intros [[u [[->|Hin] Hu]]|[_ [_ Hc]]]; try congruence.
              left. exists u. auto.
        -- split; [|reflexivity]. intros _. right. repeat split; congruence.
      * rewrite IH. split.
        -- intros [[u [Hin Hu]]|[_ [Hc _]]]; [|discriminate].
           left. exists u. auto.
        -- intros [[u [[->|Hin] Hu]]|[_ [Hc _]]]; try congruence.
           left. exists u. auto.
Qed.

(** What the loop decides: [filterStations] returns false exactly when some
    required fuel type has a price less than or equal to zero, or the list of
    required types is not empty, the open-only flag is set and the station is
    not open.  The test of the open-only flag is made in the body of the loop
    over the required types, hence only when there is one. *)
Lemma filterStations_false_iff : forall config station,
  (filterStations config station = false <->
   (exists t, In t (cfg_types config)
              /\ PrimFloat.leb (price_of t station) 0%float = true)
   \/ (cfg_types config <> [] /\ cfg_showOpenOnly config = true
       /\ st_isOpen station = false))
  /\ (filterStations config station = true <->
      ~ ((exists t, In t (cfg_types config)
                    /\ PrimFloat.leb (price_of t station) 0%float = true)
         \/ (cfg_types config <> [] /\ cfg_showOpenOnly config = true
             /\ st_isOpen station = false))).
Proof.
  intros config station. unfold filterStations.
  pose proof (filterStations_loop_false config station (cfg_types config)) as H.
  split; [exact H|].
  rewrite <- H.
  destruct (filterStations_loop config station (cfg_types config)); split;
    congruence.
Qed.

(** C2: a closed station, the open-only flag set and no required fuel type.
    The condition under which the Station Filter is to exclude a station
    holds, and both filter functions return true: the station is kept. *)
Theorem filterStations_keeps_closed_station :
  cfg_showOpenOnly open_only_config = true
  /\ st_isOpen station_closed = false
  /\ excluded_by_spec open_only_config station_closed
  /\ filterStations open_only_config station_closed = true
  /\ checkStation open_only_config station_closed = true
  /\ List.filter (filterStations open_only_config) [station_closed]
     = [station_closed].
Proof.
  repeat split. right. split; reflexivity.
Qed.


(** C10: with an empty list of required fuel types both filters return true
    and [filter] keeps every station, whatever the open-only flag, the
    station's state and its prices are. *)
Theorem empty_types_keep_all : forall config station,
  cfg_types config = [] ->
  filterStations config station = true
  /\ checkStation config station = true
  /\ forall l, List.filter (filterStations config) l = l.
Proof.
  intros config station Ht. unfold filterStations, checkStation.
  rewrite Ht. simpl. repeat split.
  induction l as [|x l IH]; simpl; [reflexivity|]. now rewrite IH.
Qed.

Lemma empty_types_keep_all_witness :
  filterStations
    (mkConfig 0%float 0%float 5%float "KEY" diesel [] true [])
    (raw_station "a" 1067 0%float 0%float false 0%float JSundefined) = true
  /\ checkStation
       (mkConfig 0%float 0%float 5%float "KEY" diesel [] true [])
       (raw_station "a" 1067 0%float 0%float false 0%float JSundefined) = true
  /\ forall l,
       List.filter
         (filterStations
            (mkConfig 0%float 0%float 5%float "KEY" diesel [] true [])) l = l.
Proof.
  apply (empty_types_keep_all
           (mkConfig 0%float 0%float 5%float "KEY" diesel [] true [])
           (raw_station "a" 1067 0%float 0%float false 0%float JSundefined)).
  reflexivity.
Defined.

(** ** Price Sorter: properties *)

(** C4: when [b]'s price on the sort field is zero the comparator returns
    [MIN_SAFE_INTEGER], a negative value, so [a] sorts before [b]; when [a]'s
    price is zero and [b]'s is not it returns [MAX_SAFE_INTEGER], a positive
    value, so [b] sorts before [a]; otherwise it returns [a]'s price minus
    [b]'s. *)
Theorem sortByPrice_cases : forall config a b,
  let pa := price_of (cfg_sortBy config) a in
  let pb := price_of (cfg_sortBy config) b in
  (PrimFloat.eqb pb 0%float = true ->
   sortByPrice config a b = MIN_SAFE_INTEGER
   /\ sorts_before (sortByPrice config a b))
  /\ (PrimFloat.eqb pa 0%float = true -> PrimFloat.eqb pb 0%float = false ->
      sortByPrice config a b = MAX_SAFE_INTEGER
      /\ sorts_after (sortByPrice config a b))
  /\ (PrimFloat.eqb pa 0%float = false -> PrimFloat.eqb pb 0%float = false ->
      sortByPrice config a b = PrimFloat.sub pa pb).
Proof.
  intros config a b pa pb. unfold sortByPrice. fold pa pb.
  repeat split; intros; repeat match goal with
    | H : PrimFloat.eqb _ _ = _ |- _ => rewrite H
    end; reflexivity.
Qed.

(** ** Array.prototype.sort: properties *)

Lemma insert_left_perm {A} (cmp : A -> A -> float) x l :
  Permutation (insert_left cmp x l) (x :: l).
Proof.
  induction l as [|y l IH]; simpl; [reflexivity|].
  destruct (PrimFloat.ltb 0%float (cmp y x)); [|reflexivity].
  rewrite IH. apply perm_swap.
Qed.

Lemma insertion_sort_perm {A} (cmp : A -> A -> float) l :
  Permutation (insertion_sort cmp l) l.
Proof.
  unfold insertion_sort.
  assert (G : forall acc,
            Permutation (fold_left (fun acc x => insert_left cmp x acc) l acc)
              (rev l ++ acc)).
  { induction l as [|x l IH]; intros acc; simpl; [reflexivity|].
    rewrite IH, insert_left_perm, <- app_assoc. simpl.
    apply Permutation_app_head. reflexivity. }
  rewrite <- (Permutation_rev (fold_left _ l [])), G, app_nil_r.
  symmetry. apply Permutation_rev.
Qed.

(** ** The pipeline: what a call does to the state *)

Section Runs.
Context {World : Type}.
Variable fetch : string -> World -> FetchResult * World.
Variable host : Host.
Variable config : Config.

Implicit Types (s : State World) (a : ref) (l : list Station).

Lemma state_eta s : mkState (world s) (trace s) (heap s) = s.
Proof. now destruct s. Qed.

Lemma read_array_run s a l :
  heap s !! a = Some l -> read_array World a s = (Returned l, s).
Proof. intros H. unfold read_array. now rewrite H. Qed.

Lemma write_array_run s a l0 l :
  heap s !! a = Some l0 ->
  write_array World a l s
  = (Returned tt, mkState (world s) (trace s) (<[a := l]> (heap s))).
Proof. intros H. unfold write_array. now rewrite H. Qed.

Lemma elem_update_run s a i f l x :
  heap s !! a = Some l -> l !! i = Some x ->
  elem_update World a i f s
  = (Returned tt,
     mkState (world s) (trace s) (<[a := <[i := f x]> l]> (heap s))).
Proof.
  intros Ha Hi. unfold elem_update, bind.
  rewrite (read_array_run _ _ _ Ha), Hi.
  now apply write_array_run with l.
Qed.

Lemma normalizeStations_run s value index stations l :
  heap s !! stations = Some l -> l !! index = Some value ->
  normalizeStations World value index stations s
  = (Returned tt,
     mkState (world s) (trace s)
       (<[stations := <[index := normalized value]> l]> (heap s))).
Proof.
  intros Ha Hi. unfold normalizeStations, bind.
  pose proof (lookup_lt_Some _ _ _ Ha) as Hlt.
  pose proof (lookup_lt_Some _ _ _ Hi) as Hlti.
  rewrite (elem_update_run _ _ _ _ _ _ Ha Hi).
  erewrite elem_update_run; cycle 1.
  { simpl. now apply list_lookup_insert_eq. }
  { now apply list_lookup_insert_eq. }
  erewrite elem_update_run; cycle 1.
  { simpl. apply list_lookup_insert_eq. now rewrite length_insert. }
  { apply list_lookup_insert_eq. now rewrite length_insert. }
  simpl. rewrite !list_insert_insert_eq. reflexivity.
Qed.

Lemma normalize_step (l0 : list Station) k x :
  l0 !! k = Some x ->
  <[k := normalized x]> (map normalized (take k l0) ++ drop k l0)
  = map normalized (take (S k) l0) ++ drop (S k) l0.
Proof.
  intros Hk.
  pose proof (lookup_lt_Some _ _ _ Hk) as Hlt.
  rewrite (drop_S _ _ _ Hk), (take_S_r _ _ _ Hk), map_app. simpl.
  rewrite <- app_assoc. simpl.
  assert (Hlen : length (map normalized (take k l0)) = k).
  { rewrite length_map, length_take. lia. }
  rewrite insert_app_r_alt by lia. rewrite Hlen, Nat.sub_diag. reflexivity.
Qed.

Lemma forEach_loop_normalize a l0 n : forall k s,
  heap s !! a = Some (map normalized (take k l0) ++ drop k l0) ->
  k + n = length l0 ->
  forEach_loop World a (normalizeStations World) k n s
  = (Returned tt,
     mkState (world s) (trace s) (<[a := map normalized l0]> (heap s))).
Proof.
  induction n as [|n IH]; intros k s Ha Hlen; simpl.
  - unfold ret. rewrite Nat.add_0_r in Hlen. subst k.
    rewrite firstn_all, drop_all, app_nil_r in Ha.
    rewrite (list_insert_id _ _ _ Ha). now rewrite state_eta.
  - unfold bind at 1. rewrite (read_array_run _ _ _ Ha).
    assert (Hk : exists x, l0 !! k = Some x).
    { apply lookup_lt_is_Some. lia. }
    destruct Hk as [x Hk].
    assert (Hcur : (map normalized (take k l0) ++ drop k l0) !! k = Some x).
    { rewrite lookup_app_r; rewrite length_map, length_take; [|lia].
      replace (k - k `min` length l0) with 0 by lia.
      now rewrite lookup_drop, Nat.add_0_r. }
    rewrite Hcur. unfold bind at 1.
    rewrite (normalizeStations_run _ _ _ _ _ Ha Hcur).
    rewrite (normalize_step _ _ _ Hk).
    rewrite IH; simpl.
    + now rewrite list_insert_insert_eq.
    + apply list_lookup_insert_eq. now apply lookup_lt_Some in Ha.
    + lia.
Qed.

Lemma Array_forEach_normalize s a l :
  heap s !! a = Some l ->
  Array_forEach World a (normalizeStations World) s
  = (Returned tt,
     mkState (world s) (trace s) (<[a := map normalized l]> (heap s))).
Proof.
  intros Ha. unfold Array_forEach, bind.
  rewrite (read_array_run _ _ _ Ha).
  apply forEach_loop_normalize; [|lia].
  now rewrite take_0, drop_0.
Qed.

Lemma getData_finish_run s stations l :
  heap s !! stations = Some l ->
  getData_finish World config stations s
  = (Returned (mkResult ["diesel"; "e5"; "e10"]%string "km" "EUR"
                 (length (heap s)) stations),
     mkState (world s) (trace s)
       (<[stations := map normalized l]> (heap s)
        ++ [insertion_sort (sortByPrice config) (map normalized l)])).
Proof.
  intros Ha. unfold getData_finish, bind.
  pose proof (lookup_lt_Some _ _ _ Ha) as Hlt.
  rewrite (Array_forEach_normalize _ _ _ Ha).
  unfold Array_slice, bind.
  erewrite read_array_run; cycle 1.
  { simpl. now apply list_lookup_insert_eq. }
  unfold new_array. simpl. rewrite drop_0.
  unfold Array_sort, bind.
  erewrite read_array_run; cycle 1.
  { simpl. rewrite lookup_app_r; rewrite length_insert; [|lia].
    now rewrite Nat.sub_diag. }
  erewrite write_array_run; cycle 1.
  { simpl. rewrite lookup_app_r; rewrite length_insert; [|lia].
    now rewrite Nat.sub_diag. }
  unfold ret. simpl. rewrite length_insert.
  rewrite insert_app_r_alt; rewrite length_insert; [|lia].
  now rewrite Nat.sub_diag.
Qed.

Local Abbreviation url := (generateUrlDetail config).
Local Abbreviation passes := (fun ev : Event => detail_exn ev = None).

Lemma retained_cons ev evs :
  retained host config (ev :: evs)
  = match detail_station ev with
    | Some st => if checkStation config st then [located host config st] else []
    | None => []
    end ++ retained host config evs.
Proof.
  unfold retained. simpl.
  destruct (detail_station ev) as [st|]; simpl; [|reflexivity].
  destruct (checkStation config st); reflexivity.
Qed.

Lemma detail_loop_run ids : forall s stations acc out s',
  heap s !! stations = Some acc ->
  detail_loop World fetch host config stations ids s = (out, s') ->
  exists evs,
    trace s' = trace s ++ evs
    /\ heap s' = <[stations := acc ++ retained host config evs]> (heap s)
    /\ map fst evs = take (length evs) (map url ids)
    /\ ((out = Returned tt /\ length evs = length ids /\ Forall passes evs)
        \/ (exists pre ev e,
              evs = pre ++ [ev] /\ Forall passes pre
              /\ detail_exn ev = Some e /\ out = Thrown e)).
Proof.
  induction ids as [|id rest IH]; intros s stations acc out s' Ha Hrun.
  - simpl in Hrun. unfold ret in Hrun. injection Hrun as <- <-.
    exists []. simpl. rewrite !app_nil_r. repeat split.
    + symmetry. now apply list_insert_id.
    + left. repeat split. constructor.
  - simpl in Hrun. unfold bind at 1 in Hrun. unfold bind at 1 in Hrun.
    unfold fetch_json in Hrun.
    destruct (fetch (url id) (world s)) as [r w] eqn:Hf.
    set (ev := (url id, r)) in *.
    assert (Hstop : forall e, detail_exn ev = Some e -> detail_station ev = None ->
      (Thrown e, mkState w (trace s ++ [ev]) (heap s)) = (out, s') ->
      exists evs,
        trace s' = trace s ++ evs
        /\ heap s' = <[stations := acc ++ retained host config evs]> (heap s)
        /\ map fst evs = take (length evs) (url id :: map url rest)
        /\ ((out = Returned tt /\ length evs = S (length rest) /\ Forall passes evs)
            \/ (exists pre ev0 e0, evs = pre ++ [ev0] /\ Forall passes pre
                  /\ detail_exn ev0 = Some e0 /\ out = Thrown e0))).
    { intros e He Hs Heq. injection Heq as <- <-. exists [ev]. repeat split.
      - simpl. rewrite retained_cons, Hs. simpl. rewrite app_nil_r.
        symmetry. now apply list_insert_id.
      - right. exists [], ev, e. repeat split; auto. }
    assert (Hgo : forall st acc', detail_station ev = Some st -> detail_exn ev = None ->
      acc' = acc ++ (if checkStation config st then [located host config st] else []) ->
      detail_loop World fetch host config stations rest
        (mkState w (trace s ++ [ev]) (<[stations := acc']> (heap s))) = (out, s') ->
      exists evs,
        trace s' = trace s ++ evs
        /\ heap s' = <[stations := acc ++ retained host config evs]> (heap s)
        /\ map fst evs = take (length evs) (url id :: map url rest)
        /\ ((out = Returned tt /\ length evs = S (length rest) /\ Forall passes evs)
            \/ (exists pre ev0 e0, evs = pre ++ [ev0] /\ Forall passes pre
                  /\ detail_exn ev0 = Some e0 /\ out = Thrown e0))).
    { intros st acc' Hst Hev -> Hrest.
      apply IH with (acc := acc ++ (if checkStation config st
                                    then [located host config st] else []))
        in Hrest; cycle 1.
      { simpl. apply list_lookup_insert_eq. now apply lookup_lt_Some in Ha. }
      destruct Hrest as [evs (Ht & Hh & Hu & Hout)].
      exists (ev :: evs). simpl in Ht, Hh. rewrite Ht, Hh. repeat split.
      - now rewrite <- app_assoc.
      - rewrite list_insert_insert_eq, retained_cons, Hst.
        now rewrite <- app_assoc.
      - simpl. now rewrite Hu.
      - destruct Hout as [(Ho & Hl & Hp)|(pre & ev0 & e0 & He & Hp & Hx & Ho)].
        + left. repeat split; auto. simpl. now rewrite Hl.
        + right. exists (ev :: pre), ev0, e0. repeat split; auto.
          now rewrite He. }
    destruct r as [reason|p].
    + apply (Hstop (Rejected reason)); [reflexivity|reflexivity|exact Hrun].
    + destruct (ok p) eqn:Hok; simpl in Hrun.
      * unfold response_station in Hrun.
        destruct (body p) as [l|st|] eqn:Hb.
        -- apply (Hstop TypeError); [| |exact Hrun];
             unfold detail_exn, detail_station; simpl; rewrite Hok, Hb; reflexivity.
        -- unfold bind at 1 in Hrun. unfold ret at 1 in Hrun.
           assert (Hst : detail_station ev = Some st).
           { unfold detail_station. simpl. now rewrite Hok, Hb. }
           assert (Hev : detail_exn ev = None).
           { unfold detail_exn. simpl. now rewrite Hok, Hb. }
           destruct (checkStation config st) eqn:Hc.
           ++ unfold Array_push, bind in Hrun.
              rewrite (read_array_run (mkState w (trace s ++ [ev]) (heap s))
                         stations acc Ha) in Hrun.
              rewrite (write_array_run (mkState w (trace s ++ [ev]) (heap s))
                         stations acc _ Ha) in Hrun.
              simpl in Hrun.
              refine (Hgo st (acc ++ [located host config st]) Hst Hev _ Hrun).
              now rewrite Hc.
           ++ unfold ret at 1 in Hrun.
              apply (Hgo st acc Hst Hev); [now rewrite Hc, app_nil_r|].
              rewrite (list_insert_id _ _ _ Ha). exact Hrun.
        -- apply (Hstop TypeError); [| |exact Hrun];
             unfold detail_exn, detail_station; simpl; rewrite Hok, Hb; reflexivity.
      * apply (Hstop (Error "Error no fuel data or station id not found"));
          [| |exact Hrun];
          unfold detail_exn, detail_station; simpl; rewrite Hok; reflexivity.
Qed.

Local Abbreviation detail_mode := (cfg_onlyStations config <> []).
Local Abbreviation area_mode := (cfg_onlyStations config = []).

Lemma mode_test_detail :
  detail_mode -> (length (cfg_onlyStations config) <? 1)%nat = false.
Proof.
  destruct (cfg_onlyStations config); [congruence|reflexivity].
Qed.

Lemma mode_test_area :
  area_mode -> (length (cfg_onlyStations config) <? 1)%nat = true.
Proof. now intros ->. Qed.

Lemma getData_stations_detail s out s' :
  detail_mode ->
  getData_stations World fetch host config s = (out, s') ->
  exists evs,
    trace s' = trace s ++ evs
    /\ heap s' = heap s ++ [retained host config evs]
    /\ map fst evs = take (length evs) (map url (cfg_onlyStations config))
    /\ ((out = Returned (length (heap s))
         /\ length evs = length (cfg_onlyStations config)
         /\ Forall passes evs)
        \/ (exists pre ev e,
              evs = pre ++ [ev] /\ Forall passes pre
              /\ detail_exn ev = Some e /\ out = Thrown e)).
Proof.
  intros Hm Hrun. unfold getData_stations in Hrun.
  rewrite (mode_test_detail Hm) in Hrun.
  unfold bind at 1 in Hrun. unfold new_array in Hrun.
  unfold bind at 1 in Hrun.
  destruct (detail_loop World fetch host config (length (heap s))
              (cfg_onlyStations config)
              (mkState (world s) (trace s) (heap s ++ [[]])))
    as [o s1] eqn:Hloop.
  apply detail_loop_run with (acc := []) in Hloop; cycle 1.
  { simpl. rewrite lookup_app_r by lia. now rewrite Nat.sub_diag. }
  destruct Hloop as [evs (Ht & Hh & Hu & Hout)]. simpl in Ht, Hh.
  rewrite insert_app_r_alt, Nat.sub_diag in Hh by lia. simpl in Hh.
  exists evs.
  destruct Hout as [(-> & Hl & Hp)|(pre & ev & e & He & Hp & Hx & ->)];
    unfold ret in Hrun; injection Hrun as <- <-; repeat split; auto.
  right. exists pre, ev, e. auto.
Qed.

Lemma getData_stations_area s out s' :
  area_mode ->
  getData_stations World fetch host config s = (out, s') ->
  trace s' = trace s ++ [(generateUrl host config,
                          fst (fetch (generateUrl host config) (world s)))]
  /\ match fst (fetch (generateUrl host config) (world s)) with
     | Failed reason => out = Thrown (Rejected reason) /\ heap s' = heap s
     | Parsed p =>
         if ok p then
           match body p with
           | Stations l =>
               out = Returned (S (length (heap s)))
               /\ heap s' = heap s ++ [l; List.filter (filterStations config) l]
           | _ => out = Thrown TypeError /\ heap s' = heap s
           end
         else out = Thrown (Error "Error no fuel data") /\ heap s' = heap s
     end.
Proof.
  intros Hm Hrun. unfold getData_stations in Hrun.
  rewrite (mode_test_area Hm) in Hrun.
  unfold bind at 1 in Hrun. unfold fetch_json in Hrun.
  destruct (fetch (generateUrl host config) (world s)) as [r w]. simpl.
  destruct r as [reason|p].
  - injection Hrun as <- <-. auto.
  - destruct (ok p); simpl in Hrun.
    + unfold response_stations in Hrun. destruct (body p) as [l| |].
      * unfold bind at 1 in Hrun. unfold new_array at 1 in Hrun.
        unfold Array_filter, bind in Hrun.
        erewrite read_array_run in Hrun; cycle 1.
        { simpl. rewrite lookup_app_r by lia. now rewrite Nat.sub_diag. }
        unfold new_array in Hrun. simpl in Hrun.
        injection Hrun as <- <-. simpl.
        rewrite length_app, <- app_assoc. simpl.
        rewrite Nat.add_1_r. auto.
      * injection Hrun as <- <-. auto.
      * injection Hrun as <- <-. auto.
    + injection Hrun as <- <-. auto.
Qed.

(** The reference [getData_stations] returns names an array of the store,
    and every earlier reference is below it. *)
Lemma getData_stations_ref s a s' :
  getData_stations World fetch host config s = (Returned a, s') ->
  exists l, heap s' !! a = Some l /\ S a = length (heap s').
Proof.
  intros Hrun.
  destruct (cfg_onlyStations config) as [|id0 ids0] eqn:Hids.
  - apply getData_stations_area in Hrun as [_ Hr]; [|exact Hids].
    destruct (fst (fetch (generateUrl host config) (world s))) as [reason|p].
    + destruct Hr; discriminate.
    + destruct (ok p); [|destruct Hr; discriminate].
      destruct (body p) as [l| |]; try (destruct Hr; discriminate).
      destruct Hr as [Ho ->]. injection Ho as ->.
      exists (List.filter (filterStations config) l). split.
      * rewrite lookup_app_r by lia.
        now replace (S (length (heap s)) - length (heap s)) with 1 by lia.
      * rewrite length_app. simpl. lia.
  - apply getData_stations_detail in Hrun; [|congruence].
    destruct Hrun as [evs (_ & -> & _ & Hout)].
    destruct Hout as [(Ho & _)|(pre & ev & e & _ & _ & _ & Ho)]; [|discriminate].
    injection Ho as ->. exists (retained host config evs). split.
    + rewrite lookup_app_r by lia. now rewrite Nat.sub_diag.
    + rewrite length_app. simpl. lia.
Qed.

Lemma contents_lookup s a l : heap s !! a = Some l -> contents s a = l.
Proof. intros H. unfold contents. now rewrite H. Qed.

(** What a successful call leaves in the store. *)
Lemma getData_run s r s2 :
  getData World fetch host config s = (Returned r, s2) ->
  exists s1 l,
    getData_stations World fetch host config s = (Returned (byDistance r), s1)
    /\ heap s1 !! byDistance r = Some l
    /\ byPrice r = S (byDistance r)
    /\ trace s2 = trace s1
    /\ getData_unsorted World fetch host config s
       = (Returned (byDistance r),
          mkState (world s1) (trace s1)
            (<[byDistance r := map normalized l]> (heap s1)))
    /\ contents s2 (byDistance r) = map normalized l
    /\ contents s2 (byPrice r)
       = insertion_sort (sortByPrice config) (map normalized l).
Proof.
  intros Hrun. unfold getData, bind in Hrun.
  destruct (getData_stations World fetch host config s) as [[a|e] s1] eqn:Hst;
    [|discriminate].
  destruct (getData_stations_ref _ _ _ Hst) as [l [Hl Hlen]].
  rewrite (getData_finish_run _ _ _ Hl) in Hrun.
  injection Hrun as <- <-. simpl.
  exists s1, l. repeat split; auto.
  - unfold getData_unsorted, bind. rewrite Hst.
    now rewrite (Array_forEach_normalize _ _ _ Hl).
  - apply contents_lookup. simpl.
    rewrite lookup_app_l by (rewrite length_insert; lia).
    apply list_lookup_insert_eq. lia.
  - apply contents_lookup. simpl.
    rewrite lookup_app_r by (rewrite length_insert; lia).
    rewrite length_insert. now rewrite Nat.sub_diag.
Qed.

(** C5: in every successful call the array returned as [byPrice] is a
    second array (the copy), a permutation of the array returned as
    [byDistance]; the two hold the same stations with the same field values;
    and [byDistance] is, element for element and in the same order, the array
    as it was after normalization, before the copy was made and sorted. *)
Theorem byPrice_permutes_byDistance : forall s r s2,
  getData World fetch host config s = (Returned r, s2) ->
  exists s1,
    getData_unsorted World fetch host config s = (Returned (byDistance r), s1)
    /\ contents s2 (byDistance r) = contents s1 (byDistance r)
    /\ Permutation (contents s2 (byPrice r)) (contents s2 (byDistance r))
    /\ (forall x, In x (contents s2 (byPrice r))
                  <-> In x (contents s2 (byDistance r)))
    /\ byPrice r <> byDistance r.
Proof.
  intros s r s2 Hrun.
  destruct (getData_run _ _ _ Hrun)
    as (s1 & l & Hst & Hl & Hp & Ht & Hun & Hd & Hpr).
  eexists. split; [exact Hun|].
  assert (Hperm : Permutation (contents s2 (byPrice r)) (contents s2 (byDistance r))).
  { rewrite Hd, Hpr. apply insertion_sort_perm. }
  repeat split.
  - rewrite Hd. symmetry. apply contents_lookup. simpl.
    apply list_lookup_insert_eq. now apply lookup_lt_Some in Hl.
  - exact Hperm.
  - apply Permutation_in. exact Hperm.
  - apply Permutation_in. symmetry. exact Hperm.
  - lia.
Qed.

Lemma detail_station_event ev raw :
  detail_station ev = Some raw ->
  ev = (fst ev, Parsed (mkResponse true (Detail raw))).
Proof.
  destruct ev as [u [reason|[o b]]]; unfold detail_station; simpl;
    [discriminate|].
  destruct o; simpl; [|discriminate].
  destruct b; try discriminate. now intros [= ->].
Qed.

Lemma getData_detail_success w r s' :
  detail_mode ->
  getData World fetch host config (initial w) = (Returned r, s') ->
  map fst (trace s') = map url (cfg_onlyStations config)
  /\ contents s' (byDistance r) = map normalized (retained host config (trace s')).
Proof.
  intros Hm Hrun.
  destruct (getData_run _ _ _ Hrun)
    as (s1 & l & Hst & Hl & Hp & Ht & Hun & Hd & Hpr).
  apply getData_stations_detail in Hst; [|exact Hm].
  destruct Hst as [evs (Hte & Hh & Hu & Hout)]. simpl in Hte, Hh.
  destruct Hout as [(Ho & Hlen & Hpass)|(pre & ev & e & _ & _ & _ & Ho)];
    [|discriminate].
  injection Ho as Hb. simpl in Hb.
  rewrite Hh, Hb in Hl. simpl in Hl. injection Hl as <-.
  rewrite Ht, Hte, Hd. split; [|reflexivity].
  rewrite Hu, Hlen, <- (length_map url). apply firstn_all.
Qed.

(** C6: when a response of a call has an [ok] field that is not true, the
    call throws the error with the message of its mode and returns no result;
    that response is the last one of the call, however many detail requests
    were answered and retained before it. *)
Theorem not_ok_aborts : forall w out s' u p,
  getData World fetch host config (initial w) = (out, s') ->
  In (u, Parsed p) (trace s') ->
  ok p = false ->
  out = Thrown (Error (no_data_message config))
  /\ exists earlier, trace s' = earlier ++ [(u, Parsed p)].
Proof.
  intros w out s' u p Hrun Hin Hok.
  assert (Hbad : forall v, detail_exn (v, Parsed p)
            = Some (Error "Error no fuel data or station id not found")).
  { intros v. unfold detail_exn. simpl. now rewrite Hok. }
  unfold getData, bind in Hrun.
  destruct (getData_stations World fetch host config (initial w))
    as [o s1] eqn:Hst.
  assert (Hs' : trace s' = trace s1).
  { destruct o as [a|e]; [|now injection Hrun as _ <-].
    destruct (getData_stations_ref _ _ _ Hst) as [l [Hl _]].
    rewrite (getData_finish_run _ _ _ Hl) in Hrun. now injection Hrun as _ <-. }
  assert (Hout : forall e, o = Thrown e -> out = Thrown e).
  { intros e ->. now injection Hrun as <- _. }
  rewrite Hs' in *. clear Hrun Hs'. unfold no_data_message.
  destruct (cfg_onlyStations config) as [|id0 ids0] eqn:Hids.
  - apply getData_stations_area in Hst as [Ht Hr]; [|exact Hids].
    simpl in Ht, Hr. rewrite Ht in Hin. destruct Hin as [Heq|[]].
    rewrite Ht. injection Heq as Hu Hp. rewrite Hp in *. rewrite Hok in Hr.
    destruct Hr as [Ho _]. split; [now apply Hout|].
    exists []. simpl. now rewrite Hu.
  - apply getData_stations_detail in Hst; [|congruence].
    destruct Hst as [evs (Ht & _ & _ & Hres)]. simpl in Ht. rewrite Ht in *.
    destruct Hres as [(_ & _ & Hpass)|(pre & ev & e & -> & Hpass & He & Ho)].
    + rewrite List.Forall_forall in Hpass. apply Hpass in Hin.
      rewrite Hbad in Hin. discriminate.
    + apply in_app_or in Hin as [Hin|[->|[]]].
      * rewrite List.Forall_forall in Hpass. apply Hpass in Hin.
        rewrite Hbad in Hin. discriminate.
      * rewrite Hbad in He. injection He as <-.
        split; [now apply Hout|]. now exists pre.
Qed.

(** C7: in detail mode the requests of a call are, in order, the detail
    requests for a prefix of the configured identifiers, one each; a call that
    returns has made the request for every identifier, and its [byDistance]
    holds, in the order of the requests, the normalized stations of the
    responses that pass the filter. *)
Theorem detail_requests_in_order : forall w out s',
  cfg_onlyStations config <> [] ->
  getData World fetch host config (initial w) = (out, s') ->
  map fst (trace s')
  = take (length (trace s'))
      (map (generateUrlDetail config) (cfg_onlyStations config))
  /\ forall r, out = Returned r ->
       map fst (trace s')
       = map (generateUrlDetail config) (cfg_onlyStations config)
       /\ contents s' (byDistance r)
          = map normalized
              (map (located host config)
                 (List.filter (checkStation config)
                    (omap detail_station (trace s')))).
Proof.
  intros w out s' Hm Hrun. split.
  - unfold getData, bind in Hrun.
    destruct (getData_stations World fetch host config (initial w))
      as [o s1] eqn:Hst.
    assert (Hs' : trace s' = trace s1).
    { destruct o as [a|e]; [|now injection Hrun as _ <-].
      destruct (getData_stations_ref _ _ _ Hst) as [l [Hl _]].
      rewrite (getData_finish_run _ _ _ Hl) in Hrun.
      now injection Hrun as _ <-. }
    apply getData_stations_detail in Hst; [|exact Hm].
    destruct Hst as [evs (Ht & _ & Hu & _)]. simpl in Ht.
    now rewrite Hs', Ht.
  - intros r ->. now apply getData_detail_success with w.
Qed.
End Runs.

(** ** Geo Math: properties *)

Lemma float_sub_self (x : float) : isFinite x = true -> PrimFloat.sub x x = 0%float.
Proof.
  intros Hx. apply Prim2SF_inj. rewrite sub_spec. unfold isFinite in Hx.
  destruct (Prim2SF x) as [s|s| |s m e]; try discriminate.
  - destruct s; reflexivity.
  - unfold SF64sub, SFsub. cbv zeta.
    replace (IntDef.Z.min e e) with e by (symmetry; apply Z.min_id).
    unfold shl_align.
    replace (IntDef.Z.sub e e) with 0%Z by (symmetry; apply Z.sub_diag).
    cbn [fst].
    replace (IntDef.Z.sub (cond_Zopp s (Z.pos m)) (cond_Zopp s (Z.pos m)))
      with 0%Z by (symmetry; apply Z.sub_diag).
    reflexivity.
Qed.

Lemma float_mul_zero (v : float) :
  isFinite v = true ->
  PrimFloat.mul v 0%float = 0%float \/ PrimFloat.mul v 0%float = (-0)%float.
Proof.
  intros Hv. unfold isFinite in Hv.
  destruct (Prim2SF v) as [s|s| |s m e] eqn:Hp; try discriminate.
  - destruct s; [right|left]; apply Prim2SF_inj; rewrite mul_spec, Hp; reflexivity.
  - destruct s; [right|left]; apply Prim2SF_inj; rewrite mul_spec, Hp; reflexivity.
Qed.

Lemma float_getDistance_self (h : Host) (p : Pos float) :
  isFinite (lat p) = true -> isFinite (lng p) = true ->
  host_sin h 0%float = 0%float ->
  host_atan2 h 0%float 1%float = 0%float ->
  isFinite (PrimFloat.mul (host_cos h (deg2rad (H := float_ops h) (lat p)))
                           (host_cos h (deg2rad (H := float_ops h) (lat p)))) = true ->
  getDistance (H := float_ops h) p p = 0%float.
Proof.
  intros Hlat Hlng Hsin Hatan Hcos.
  unfold getDistance, earth. 
  change (@n_sub float (float_ops h)) with PrimFloat.sub.
  rewrite (float_sub_self _ Hlat), (float_sub_self _ Hlng).
  change (deg2rad (H := float_ops h) 0%float)
    with (0 * (0x1.921fb54442d18p+1 / float_of_Z 180))%float.
  replace (0 * (0x1.921fb54442d18p+1 / float_of_Z 180))%float with 0%float by reflexivity.
  cbv zeta.
  change (@n_div float (float_ops h) 0%float (lit 2)) with (0 / float_of_Z 2)%float.
  replace (0 / float_of_Z 2)%float with 0%float by reflexivity.
  change (@Math_sin float (float_ops h)) with (host_sin h).
  change (@Math_cos float (float_ops h)) with (host_cos h).
  change (@Math_atan2 float (float_ops h)) with (host_atan2 h).
  change (@Math_sqrt float (float_ops h)) with PrimFloat.sqrt.
  change (@n_mul float (float_ops h)) with PrimFloat.mul.
  change (@n_add float (float_ops h)) with PrimFloat.add.
  change (@n_sub float (float_ops h)) with PrimFloat.sub.
  change (@n_div float (float_ops h)) with PrimFloat.div.
  change (@lit float (float_ops h)) with float_of_Z.
  rewrite Hsin.
  destruct (float_mul_zero _ Hcos) as [-> | ->];
    match goal with
    | |- context [host_atan2 h ?a ?b] =>
        let a' := eval vm_compute in a in
        let b' := eval vm_compute in b in
        change (host_atan2 h a b) with (host_atan2 h a' b')
    end; rewrite Hatan; reflexivity.
Qed.

(** *** From a point to itself *)

(** X24: on binary64 numbers the distance from a point with finite
    coordinates to itself is exactly +0, on every host whose [Math.sin] and
    [Math.atan2] return the results the language fixes at zero and whose
    cosine of the latitude has a finite square. *)
Theorem getDistance_self_zero : forall (h : Host) (p : Pos float),
  isFinite (lat p) = true -> isFinite (lng p) = true ->
  host_sin h 0%float = 0%float ->
  host_atan2 h 0%float 1%float = 0%float ->
  isFinite (PrimFloat.mul
              (host_cos h (deg2rad (H := float_ops h) (lat p)))
              (host_cos h (deg2rad (H := float_ops h) (lat p)))) = true ->
  getDistance (H := float_ops h) p p = 0%float.
Proof.
  intros h p Hlat Hlng Hsin Hatan Hcos.
  now apply float_getDistance_self.
Qed.

Lemma getDistance_self_zero_witness :
  getDistance (H := float_ops rounding_host)
    (mkPos 52.5%float 0x1.acccccccccccdp+3%float)
    (mkPos 52.5%float 0x1.acccccccccccdp+3%float) = 0%float.
Proof.
  apply (getDistance_self_zero rounding_host
           (mkPos 52.5%float 0x1.acccccccccccdp+3%float));
    vm_compute; reflexivity.
Defined.

(** *** Antipodal points *)

(** C8: the antipodal points (2.255, 0) and (-2.255, 180), both with finite
    coordinates, on a host that rounds sine and cosine correctly at the
    arguments of the call.  The sum under the square roots comes out as
    1 + 2^-52, one minus it is negative, its square root is NaN, and
    [getDistance] returns NaN and no distance. *)
Theorem getDistance_antipodal_nan :
  isFinite (lat point_east) = true /\ isFinite (lng point_east) = true
  /\ isFinite (lat point_west) = true /\ isFinite (lng point_west) = true
  /\ (host_sin rounding_host (-0x1.4269fa3d1a0a1p-5)
      * host_sin rounding_host (-0x1.4269fa3d1a0a1p-5)
      + host_cos rounding_host 0x1.4269fa3d1a0a1p-5
        * host_cos rounding_host (-0x1.4269fa3d1a0a1p-5)
        * host_sin rounding_host 0x1.921fb54442d18p+0
        * host_sin rounding_host 0x1.921fb54442d18p+0)%float
     = 0x1.0000000000001p+0%float
  /\ PrimFloat.sqrt (1 - 0x1.0000000000001p+0) = nan
  /\ getDistance (H := float_ops rounding_host) point_east point_west = nan.
Proof. vm_compute. repeat split. Qed.

(** *** The two directions *)

Lemma binary_round_aux_opp s m e l :
  binary_round_aux prec emax (negb s) m e l
  = SFopp (binary_round_aux prec emax s m e l).
Proof.
  unfold binary_round_aux.
  destruct (shr_fexp prec emax m e l) as [mrs' e'].
  destruct (shr_fexp prec emax _ e' loc_Exact) as [mrs'' e''].
  destruct (shr_m mrs''); [reflexivity| |reflexivity].
  destruct (_ <=? _)%Z; reflexivity.
Qed.

Lemma binary_round_opp s m e :
  binary_round prec emax (negb s) m e = SFopp (binary_round prec emax s m e).
Proof.
  unfold binary_round. destruct (shl_align m e _) as [mz ez].
  apply binary_round_aux_opp.
Qed.

Lemma SFmul_opp_l X Y : SF64mul (SFopp X) Y = SFopp (SF64mul X Y).
Proof.
  unfold SF64mul.
  destruct X as [sx|sx| |sx mx ex], Y as [sy|sy| |sy my ey]; simpl;
    rewrite <- ?negb_xorb_l; try reflexivity.
  apply binary_round_aux_opp.
Qed.

Lemma SFmul_comm X Y : SF64mul X Y = SF64mul Y X.
Proof.
  unfold SF64mul.
  destruct X as [sx|sx| |sx mx ex], Y as [sy|sy| |sy my ey]; simpl;
    rewrite ?(xorb_comm sx sy); try reflexivity.
  replace (mx * my)%positive with (my * mx)%positive by apply Pos.mul_comm.
  replace (IntDef.Z.add ex ey) with (IntDef.Z.add ey ex) by apply Z.add_comm.
  reflexivity.
Qed.

Lemma SFdiv_opp_l X Y : SF64div (SFopp X) Y = SFopp (SF64div X Y).
Proof.
  unfold SF64div.
  destruct X as [sx|sx| |sx mx ex], Y as [sy|sy| |sy my ey]; simpl;
    rewrite <- ?negb_xorb_l; try reflexivity.
  destruct (SFdiv_core_binary _ _ _ _ _ _) as [[mz ez] lz].
  apply binary_round_aux_opp.
Qed.

Lemma SFsub_swap A B :
  SF64sub B A = SFopp (SF64sub A B)
  \/ (SF64sub A B = S754_zero false /\ SF64sub B A = S754_zero false).
Proof.
  unfold SF64sub.
  destruct A as [sa|sa| |sa ma ea], B as [sb|sb| |sb mb eb];
    try (simpl; try destruct sa; try destruct sb; simpl;
         solve [left; reflexivity | right; split; reflexivity]).
  unfold SFsub. cbv zeta.
  replace (IntDef.Z.min eb ea) with (IntDef.Z.min ea eb) by apply Z.min_comm.
  set (x := cond_Zopp sa _). set (y := cond_Zopp sb _).
  change IntDef.Z.sub with Z.sub.
  replace (y - x)%Z with (- (x - y))%Z by lia.
  destruct (x - y)%Z as [|m|m]; simpl.
  - right. split; reflexivity.
  - left. apply (binary_round_opp false).
  - left. apply (binary_round_opp true).
Qed.

Lemma float_opp_opp (x : float) : (- - x)%float = x.
Proof.
  apply Prim2SF_inj. rewrite !opp_spec.
  destruct (Prim2SF x) as [s|s| |s m e]; simpl; rewrite ?negb_involutive;
    reflexivity.
Qed.

Lemma float_mul_opp_l (x y : float) : (- x * y)%float = (- (x * y))%float.
Proof.
  apply Prim2SF_inj. rewrite opp_spec, !mul_spec, opp_spec. apply SFmul_opp_l.
Qed.

Lemma float_mul_comm (x y : float) : (x * y)%float = (y * x)%float.
Proof. apply Prim2SF_inj. rewrite !mul_spec. apply SFmul_comm. Qed.

Lemma float_mul_opp_r (x y : float) : (x * - y)%float = (- (x * y))%float.
Proof.
  rewrite (float_mul_comm x (- y)), float_mul_opp_l. f_equal.
  apply float_mul_comm.
Qed.

Lemma float_div_opp_l (x y : float) : (- x / y)%float = (- (x / y))%float.
Proof.
  apply Prim2SF_inj. rewrite opp_spec, !div_spec, opp_spec. apply SFdiv_opp_l.
Qed.

Lemma float_sub_swap (a b : float) :
  (b - a)%float = (- (a - b))%float
  \/ ((a - b)%float = 0%float /\ (b - a)%float = 0%float).
Proof.
  destruct (SFsub_swap (Prim2SF a) (Prim2SF b)) as [H|[H1 H2]].
  - left. apply Prim2SF_inj. now rewrite opp_spec, !sub_spec.
  - right. split; apply Prim2SF_inj; rewrite sub_spec; assumption.
Qed.

(** The sine of half the angle, as [getDistance] takes it of a difference
    of degrees. *)
Lemma half_sine_swap (h : Host) (k two a b : float) :
  (forall x, host_sin h (- x) = (- host_sin h x)%float) ->
  host_sin h ((b - a) * k / two)%float = host_sin h ((a - b) * k / two)%float
  \/ host_sin h ((b - a) * k / two)%float
     = (- host_sin h ((a - b) * k / two))%float.
Proof.
  intros Hodd. destruct (float_sub_swap a b) as [H|[H1 H2]].
  - right. rewrite H, float_mul_opp_l, float_div_opp_l. apply Hodd.
  - left. now rewrite H1, H2.
Qed.

(** X17: on binary64 numbers, on every host whose [Math.sin] is odd, the
    distance from [p] to [q] is the distance from [q] to [p], to the last
    bit. *)
Theorem getDistance_symmetric : forall (h : Host) (p q : Pos float),
  (forall x, host_sin h (- x) = (- host_sin h x)%float) ->
  getDistance (H := float_ops h) p q = getDistance (H := float_ops h) q p.
Proof.
  intros h p q Hodd. unfold getDistance, deg2rad.
  cbn [n_add n_sub n_mul n_div Math_PI Math_sqrt Math_sin Math_cos Math_atan2
       lit float_ops].
  set (k := (_ / float_of_Z 180)%float).
  set (two := float_of_Z 2).
  assert (Hsq : forall a b P,
    (P * host_sin h ((b - a) * k / two) * host_sin h ((b - a) * k / two)
     = P * host_sin h ((a - b) * k / two) * host_sin h ((a - b) * k / two))%float).
  { intros a b P. destruct (half_sine_swap h k two a b Hodd) as [->| ->].
    - reflexivity.
    - now rewrite !float_mul_opp_r, float_mul_opp_l, float_opp_opp. }
  assert (Hsq1 : forall a b,
    (host_sin h ((b - a) * k / two) * host_sin h ((b - a) * k / two)
     = host_sin h ((a - b) * k / two) * host_sin h ((a - b) * k / two))%float).
  { intros a b. destruct (half_sine_swap h k two a b Hodd) as [->| ->].
    - reflexivity.
    - now rewrite float_mul_opp_r, float_mul_opp_l, float_opp_opp. }
  rewrite (Hsq1 (lat p) (lat q)), (Hsq (lng p) (lng q)).
  rewrite (float_mul_comm (host_cos h (lat p * k)) (host_cos h (lat q * k))).
  reflexivity.
Qed.

Lemma odd_sine_host_odd (x : float) :
  host_sin odd_sine_host (- x) = (- host_sin odd_sine_host x)%float.
Proof.
  simpl. now rewrite float_mul_opp_l, (float_mul_opp_l x (- x)),
    float_mul_opp_r, float_opp_opp.
Qed.

Lemma getDistance_symmetric_witness :
  getDistance (H := float_ops odd_sine_host) point_east point_west
  = getDistance (H := float_ops odd_sine_host) point_west point_east.
Proof.
  apply (getDistance_symmetric odd_sine_host point_east point_west).
  exact odd_sine_host_odd.
Defined.

(** ** Number.prototype.toFixed: properties *)

Lemma nearest_scaled_exact m e f :
  (0 <= e)%Z -> nearest_scaled m e f = (Z.pos m * 10 ^ Z.of_nat f * 2 ^ e)%Z.
Proof.
  intros He. unfold nearest_scaled.
  destruct (Z.leb_spec 0 e) as [_|Hlt]; [reflexivity|lia].
Qed.

(** Below the binary point: twice the distance between [n] and the scaled
    value is at most one unit, and a tie goes to the larger [n]. *)
Lemma nearest_scaled_nearest m e f :
  (e < 0)%Z ->
  (- 2 ^ (- e)
   <= 2 * (Z.pos m * 10 ^ Z.of_nat f) - 2 * 2 ^ (- e) * nearest_scaled m e f
   < 2 ^ (- e))%Z.
Proof.
  intros He. unfold nearest_scaled.
  destruct (Z.leb_spec 0 e) as [Hle|_]; [lia|].
  assert (Hd : (0 < 2 ^ (- e))%Z) by (apply Z.pow_pos_nonneg; lia).
  set (d := (2 ^ (- e))%Z) in *.
  set (sc := (Z.pos m * 10 ^ Z.of_nat f)%Z).
  pose proof (Z.div_mod (2 * sc + d) (2 * d) ltac:(lia)) as Hdiv.
  pose proof (Z.mod_pos_bound (2 * sc + d) (2 * d) ltac:(lia)) as Hmod.
  lia.
Qed.

Example toFixed_zero : toFixed sample_host 0%float 1 = "0.0".
Proof. reflexivity. Qed.

Example toFixed_tie_up : toFixed sample_host 0.25%float 1 = "0.3".
Proof. reflexivity. Qed.

Example toFixed_exact : toFixed sample_host 111.5%float 1 = "111.5".
Proof. reflexivity. Qed.

Example toFixed_negative : toFixed sample_host (-2.5)%float 0 = "-3".
Proof. reflexivity. Qed.

Example String_slice_short : String_slice "0123" (-5) = "0123".
Proof. reflexivity. Qed.

Example String_slice_long : String_slice "012345" (-5) = "12345".
Proof. reflexivity. Qed.

(** ** Normalizer: properties *)

Lemma all_from_next P lo count :
  fst (N.iter count
         (fun st => (N.succ (fst st), snd st && P (fst st))) (lo, true))
  = (lo + count)%N.
Proof.
  induction count using N.peano_ind.
  - simpl. lia.
  - rewrite N.iter_succ. simpl. rewrite IHcount. lia.
Qed.

Lemma all_from_sound P lo count :
  all_from P lo count = true ->
  forall k, (lo <= k < lo + count)%N -> P k = true.
Proof.
  unfold all_from. induction count using N.peano_ind; intros H k Hk.
  - lia.
  - rewrite N.iter_succ in H. simpl in H. apply andb_prop in H as [H1 H2].
    rewrite all_from_next in H2.
    destruct (N.eq_dec k (lo + count)%N) as [->|Hne]; [exact H2|].
    apply IHcount; [exact H1|lia].
Qed.

Lemma four_and_five_digit_codes : all_from padded_by_slice 1000 99000 = true.
Proof. vm_compute. reflexivity. Qed.

Lemma slice_pads_postCode n :
  (1000 <= n <= 99999)%N ->
  String_slice ("0" +:+ N_toString n) (-5) = zero_padded5 n.
Proof.
  intros Hn. apply String.eqb_eq.
  apply (all_from_sound padded_by_slice 1000 99000 four_and_five_digit_codes).
  lia.
Qed.

(** C1, as the code has it: [normalizeStations] sets [address] to the last
    five characters of ["0"] followed by the postal code, then a space, the
    place, [" - "], the street, a space and the house number; for a postal
    code of four or five digits the first part is the code padded with zeros
    to five digits. *)
Theorem normalizeStations_address :
  forall (World : Type) (s : State World) stations index l value,
  heap s !! stations = Some l ->
  l !! index = Some value ->
  exists value',
    normalizeStations World value index stations s
    = (Returned tt,
       mkState (world s) (trace s)
         (<[stations := <[index := value']> l]> (heap s)))
    /\ st_address value'
       = Some (String_slice ("0" +:+ N_toString (st_postCode value)) (-5)
               +:+ " " +:+ st_place value +:+ " - " +:+ st_street value
               +:+ " " +:+ st_houseNumber value)
    /\ ((1000 <= st_postCode value <= 99999)%N ->
        st_address value'
        = Some (zero_padded5 (st_postCode value)
                +:+ " " +:+ st_place value +:+ " - " +:+ st_street value
                +:+ " " +:+ st_houseNumber value)).
Proof.
  intros World s stations index l value Hl Hi.
  exists (normalized value). split; [|split].
  - now apply normalizeStations_run.
  - reflexivity.
  - intros Hn. simpl. unfold address_of. now rewrite (slice_pads_postCode _ Hn).
Qed.

Lemma normalizeStations_address_witness :
  exists value',
    normalizeStations unit station_a 0 0 (mkState tt [] [[station_a]])
    = (Returned tt, mkState tt [] [[value']])
    /\ st_address value' = Some "01067 Foo - Bar 4".
Proof.
  destruct (normalizeStations_address unit (mkState tt [] [[station_a]])
              0 0 [station_a] station_a eq_refl eq_refl)
    as (value' & Hrun & _ & Hpad).
  exists value'. split; [exact Hrun|].
  rewrite Hpad; [reflexivity|]. vm_compute. split; discriminate.
Defined.

(** C1, the specification's own example: postal code 123 with place "Foo",
    street "Bar" and house number "4" gets one leading zero only. *)
Lemma address_of_short_postCode :
  map st_address
    (contents
       (snd (normalizeStations unit station_foo 0 0
               (mkState tt [] [[station_foo]]))) 0)
  = [Some "0123 Foo - Bar 4"]
  /\ "0123 Foo - Bar 4" <> "00123 Foo - Bar 4".
Proof. split; [reflexivity|discriminate]. Qed.

(** ** Witnesses on the sample data *)

Lemma sortByPrice_cases_witness :
  sortByPrice (sample_config [diesel] [])
    station_a (raw_station "n" 1067 0%float 0%float true 0%float JSundefined)
  = MIN_SAFE_INTEGER
  /\ sortByPrice (sample_config [diesel] [])
       (raw_station "n" 1067 0%float 0%float true 0%float JSundefined) station_a
     = MAX_SAFE_INTEGER
  /\ sortByPrice (sample_config [diesel] []) station_a station_b
     = 0.25%float.
Proof.
  split; [|split].
  - apply (sortByPrice_cases (sample_config [diesel] []) station_a
             (raw_station "n" 1067 0%float 0%float true 0%float JSundefined)).
    reflexivity.
  - apply (sortByPrice_cases (sample_config [diesel] [])
             (raw_station "n" 1067 0%float 0%float true 0%float JSundefined)
             station_a); reflexivity.
  - rewrite (proj2 (proj2 (sortByPrice_cases (sample_config [diesel] [])
                             station_a station_b))); reflexivity.
Defined.

(** C3: a call in detail mode whose one station lies some two kilometers
    from the configured origin.  [getDistance] returns the number
    2.3245915422910026; the call returns, and the [dist] and the [distance]
    of its station are the string "2.3" that [toFixed(1)] makes of that
    number, not a number. *)
Theorem detail_distance_is_a_string :
  getDistance (H := float_ops rounding_host)
    (mkPos (st_lat station_near) (st_lng station_near))
    (mkPos (cfg_lat (berlin_config [diesel] ["n"]))
       (cfg_lng (berlin_config [diesel] ["n"])))
  = 0x1.298c37355959fp+1%float
  /\ match near_call with
     | (Returned r, s') =>
         map st_dist (contents s' (byDistance r)) = [JSstring "2.3"]
         /\ map st_distance (contents s' (byDistance r)) = [JSstring "2.3"]
         /\ map st_distance (contents s' (byPrice r)) = [JSstring "2.3"]
         /\ forallb is_string (map st_distance (contents s' (byDistance r)))
            = true
         /\ forallb is_number (map st_distance (contents s' (byDistance r)))
            = false
     | (Thrown _, _) => False
     end.
Proof. vm_compute. repeat split. Qed.

Lemma byPrice_permutes_byDistance_witness :
  Permutation
    (contents
       (snd (getData nat (scripted area_script) sample_host
               (sample_config [diesel] []) (initial 0))) 2)
    (contents
       (snd (getData nat (scripted area_script) sample_host
               (sample_config [diesel] []) (initial 0))) 1)
  /\ map st_id
       (contents
          (snd (getData nat (scripted area_script) sample_host
                  (sample_config [diesel] []) (initial 0))) 1) = ["x"; "z"]
  /\ map st_id
       (contents
          (snd (getData nat (scripted area_script) sample_host
                  (sample_config [diesel] []) (initial 0))) 2) = ["z"; "x"].
Proof.
  destruct (byPrice_permutes_byDistance (scripted area_script) sample_host
              (sample_config [diesel] []) (initial 0)
              (mkResult ["diesel"; "e5"; "e10"] "km" "EUR" 2 1)
              (snd (getData nat (scripted area_script) sample_host
                      (sample_config [diesel] []) (initial 0))))
    as (s1 & _ & _ & Hperm & _).
  - vm_compute. reflexivity.
  - split; [exact Hperm|]. split; vm_compute; reflexivity.
Defined.

Lemma not_ok_aborts_witness :
  fst (getData nat (scripted refusing_script) sample_host
         (sample_config [diesel] ["a"; "b"; "c"]) (initial 0))
  = Thrown (Error "Error no fuel data or station id not found")
  /\ exists earlier,
       trace (snd (getData nat (scripted refusing_script) sample_host
                     (sample_config [diesel] ["a"; "b"; "c"]) (initial 0)))
       = earlier
         ++ [(generateUrlDetail (sample_config [diesel] ["a"; "b"; "c"]) "b",
              not_ok)].
Proof.
  apply (not_ok_aborts (scripted refusing_script) sample_host
           (sample_config [diesel] ["a"; "b"; "c"]) 0).
  - now destruct (getData nat (scripted refusing_script) sample_host
                    (sample_config [diesel] ["a"; "b"; "c"]) (initial 0)).
  - vm_compute. right. left. reflexivity.
  - reflexivity.
Defined.

Lemma detail_requests_in_order_witness :
  map fst
    (trace (snd (getData nat (scripted detail_script) sample_host
                   (sample_config [diesel] ["a"; "b"]) (initial 0))))
  = map (generateUrlDetail (sample_config [diesel] ["a"; "b"])) ["a"; "b"]
  /\ map st_id
       (contents
          (snd (getData nat (scripted detail_script) sample_host
                  (sample_config [diesel] ["a"; "b"]) (initial 0))) 0)
     = ["a"; "b"].
Proof.
  destruct (detail_requests_in_order (scripted detail_script) sample_host
              (sample_config [diesel] ["a"; "b"]) 0
              (Returned (mkResult ["diesel"; "e5"; "e10"] "km" "EUR" 1 0))
              (snd (getData nat (scripted detail_script) sample_host
                      (sample_config [diesel] ["a"; "b"]) (initial 0))))
    as [_ Hall].
  - discriminate.
  - vm_compute. reflexivity.
  - destruct (Hall _ eq_refl) as [Hurls Hby]. split; [exact Hurls|].
    simpl byDistance in Hby. rewrite Hby. vm_compute. reflexivity.
Defined.

(** * Further properties of the provider *)

(** ** Station Filter and Price Sorter: auxiliary facts *)

Lemma checkStation_loop_filterStations_loop config station types :
  checkStation_loop config station types
  = filterStations_loop config station types.
Proof.
  induction types as [|t rest IH]; simpl; [reflexivity|]. now rewrite IH.
Qed.

Lemma filterStations_kept config station :
  filterStations config station = true ->
  (forall t, In t (cfg_types config) ->
             PrimFloat.leb (price_of t station) 0%float = false)
  /\ (cfg_types config <> [] -> cfg_showOpenOnly config = true ->
      st_isOpen station = true).
Proof.
  intros Hk. unfold filterStations in Hk.
  pose proof (filterStations_loop_false config station (cfg_types config)) as H.
  split.
  - intros t Hin.
    destruct (PrimFloat.leb (price_of t station) 0%float) eqn:Hp; [|reflexivity].
    assert (Hf : filterStations_loop config station (cfg_types config) = false).
    { apply H. left. exists t. auto. }
    congruence.
  - intros Hne Ho. destruct (st_isOpen station) eqn:Hs; [reflexivity|].
    assert (Hf : filterStations_loop config station (cfg_types config) = false).
    { apply H. right. auto. }
    congruence.
Qed.

(** ** The pipeline: outcomes and results *)

Section MoreRuns.
Context {World : Type}.
Variable fetch : string -> World -> FetchResult * World.
Variable host : Host.
Variable config : Config.

Lemma request_exn_detail ev :
  cfg_onlyStations config <> [] -> request_exn config ev = detail_exn ev.
Proof.
  intros Hm. unfold request_exn, detail_exn, no_data_message.
  rewrite (mode_test_detail config Hm). reflexivity.
Qed.

(** The trace and outcome of a call in area mode. *)
Lemma getData_area_run w out s' :
  cfg_onlyStations config = [] ->
  getData World fetch host config (initial w) = (out, s') ->
  exists ev,
    ev = (generateUrl host config, fst (fetch (generateUrl host config) w))
    /\ trace s' = [ev]
    /\ match request_exn config ev with
       | Some e => out = Thrown e
       | None =>
           exists r l,
             out = Returned r
             /\ snd ev = Parsed (mkResponse true (Stations l))
             /\ contents s' (byDistance r)
                = map normalized (List.filter (filterStations config) l)
             /\ contents s' (byPrice r)
                = insertion_sort (sortByPrice config)
                    (map normalized (List.filter (filterStations config) l))
       end.
Proof.
  intros Hm Hrun. eexists. split; [reflexivity|].
  unfold getData, bind in Hrun.
  destruct (getData_stations World fetch host config (initial w))
    as [o s1] eqn:Hst.
  pose proof (getData_stations_area fetch host config _ _ _ Hm Hst) as [Ht Hr].
  simpl in Ht, Hr. unfold request_exn, no_data_message.
  rewrite (mode_test_area config Hm). simpl.
  destruct (fst (fetch (generateUrl host config) w)) as [reason|[o' b]].
  - destruct Hr as [-> _]. injection Hrun as <- <-. auto.
  - simpl in *. destruct o'; simpl.
    + destruct b as [l|st|]; try (destruct Hr as [-> _]; injection Hrun as <- <-; auto).
      destruct Hr as [-> Hh].
      assert (Hl : heap s1 !! 1
                   = Some (List.filter (filterStations config) l)).
      { rewrite Hh. reflexivity. }
      rewrite (getData_finish_run config _ _ _ Hl) in Hrun.
      injection Hrun as <- <-. simpl. split; [exact Ht|].
      eexists _, l. split; [reflexivity|]. split; [reflexivity|].
      rewrite Hh. simpl. split; reflexivity.
    + destruct Hr as [-> _]. injection Hrun as <- <-. auto.
Qed.

(** The trace and outcome of a call in detail mode. *)
Lemma getData_detail_run w out s' :
  cfg_onlyStations config <> [] ->
  getData World fetch host config (initial w) = (out, s') ->
  (Forall (fun ev => detail_exn ev = None) (trace s')
   /\ length (trace s') = length (cfg_onlyStations config)
   /\ exists r,
        out = Returned r
        /\ contents s' (byDistance r)
           = map normalized (retained host config (trace s'))
        /\ contents s' (byPrice r)
           = insertion_sort (sortByPrice config)
               (map normalized (retained host config (trace s'))))
  \/ (exists pre ev e,
        trace s' = pre ++ [ev]
        /\ Forall (fun ev => detail_exn ev = None) pre
        /\ detail_exn ev = Some e /\ out = Thrown e).
Proof.
  intros Hm Hrun. unfold getData, bind in Hrun.
  destruct (getData_stations World fetch host config (initial w))
    as [o s1] eqn:Hst.
  destruct (getData_stations_detail fetch host config _ _ _ Hm Hst)
    as [evs (Ht & Hh & _ & Hout)].
  simpl in Ht, Hh.
  destruct Hout as [(-> & Hlen & Hpass)|(pre & ev & e & -> & Hpass & He & ->)].
  - left.
    assert (Hl : heap s1 !! 0 = Some (retained host config evs)).
    { rewrite Hh. reflexivity. }
    simpl in Hrun. rewrite (getData_finish_run config _ _ _ Hl) in Hrun.
    injection Hrun as <- <-. simpl. rewrite Ht. repeat split; auto.
    eexists. split; [reflexivity|]. rewrite Hh. simpl. split; reflexivity.
  - right. injection Hrun as <- <-. exists pre, ev, e. auto.
Qed.

(** A request that fails, is refused or lacks its payload is the last of its
    call, and decides what the call throws. *)
Lemma failed_request_ends_call w out s' ev e :
  getData World fetch host config (initial w) = (out, s') ->
  In ev (trace s') ->
  request_exn config ev = Some e ->
  out = Thrown e /\ exists earlier, trace s' = earlier ++ [ev].
Proof.
  intros Hrun Hin He.
  destruct (cfg_onlyStations config) as [|id0 ids0] eqn:Hids.
  - destruct (getData_area_run _ _ _ Hids Hrun) as (ev0 & _ & Ht & Hres).
    rewrite Ht in Hin. destruct Hin as [->|[]].
    rewrite He in Hres. split; [exact Hres|]. exists []. exact Ht.
  - assert (Hm : cfg_onlyStations config <> []) by congruence.
    rewrite (request_exn_detail _ Hm) in He.
    destruct (getData_detail_run _ _ _ Hm Hrun)
      as [(Hpass & _)|(pre & ev0 & e0 & Ht & Hpass & He0 & ->)].
    + rewrite List.Forall_forall in Hpass. apply Hpass in Hin. congruence.
    + rewrite Ht in Hin. apply in_app_or in Hin as [Hin|[->|[]]].
      * rewrite List.Forall_forall in Hpass. apply Hpass in Hin. congruence.
      * split; [congruence|]. now exists pre.
Qed.

(** X2: a transport or parsing failure of any request is thrown on as it is,
    and no request follows it. *)
Theorem transport_failure_propagates : forall w out s' u reason,
  getData World fetch host config (initial w) = (out, s') ->
  In (u, Failed reason) (trace s') ->
  out = Thrown (Rejected reason)
  /\ exists earlier, trace s' = earlier ++ [(u, Failed reason)].
Proof.
  intros w out s' u reason Hrun Hin.
  now apply (failed_request_ends_call w out s' (u, Failed reason)).
Qed.

(** X3: a response that is [ok] but lacks the property its mode reads
    ([stations] in area mode, [station] in detail mode) makes the call throw a
    [TypeError]; no request follows it. *)
Theorem missing_payload_throws_TypeError : forall w out s' u p,
  getData World fetch host config (initial w) = (out, s') ->
  In (u, Parsed p) (trace s') ->
  ok p = true ->
  match body p with
  | Stations _ => cfg_onlyStations config <> []
  | Detail _ => cfg_onlyStations config = []
  | NoBody => True
  end ->
  out = Thrown TypeError
  /\ exists earlier, trace s' = earlier ++ [(u, Parsed p)].
Proof.
  intros w out s' u p Hrun Hin Hok Hbody.
  apply (failed_request_ends_call w out s' (u, Parsed p)); auto.
  unfold request_exn. simpl. rewrite Hok. simpl.
  destruct (cfg_onlyStations config) as [|id0 ids0] eqn:Hids; simpl;
    destruct (body p); try reflexivity; congruence.
Qed.

(** X4: a call throws only when its last request failed, was refused or
    lacked its payload, and then throws what that request dictates; every
    request before the last was answered in full. *)
Theorem throws_only_on_failed_request : forall w s' e,
  getData World fetch host config (initial w) = (Thrown e, s') ->
  exists earlier ev,
    trace s' = earlier ++ [ev]
    /\ request_exn config ev = Some e
    /\ Forall (fun ev' => request_exn config ev' = None) earlier.
Proof.
  intros w s' e Hrun.
  destruct (cfg_onlyStations config) as [|id0 ids0] eqn:Hids.
  - destruct (getData_area_run _ _ _ Hids Hrun) as (ev0 & _ & Ht & Hres).
    exists [], ev0. split; [exact Ht|]. split; [|constructor].
    destruct (request_exn config ev0) as [e0|].
    + congruence.
    + destruct Hres as (r & l & Hr & _). discriminate.
  - assert (Hm : cfg_onlyStations config <> []) by congruence.
    destruct (getData_detail_run _ _ _ Hm Hrun)
      as [(_ & _ & r & Hr & _)|(pre & ev0 & e0 & Ht & Hpass & He0 & He)];
      [discriminate|].
    injection He as ->. exists pre, ev0. split; [exact Ht|].
    rewrite (request_exn_detail _ Hm). split; [exact He0|].
    eapply List.Forall_impl; [|exact Hpass].
    intros ev' Hev'. simpl. now rewrite (request_exn_detail _ Hm).
Qed.

Lemma checkStation_filterStations station :
  checkStation config station = filterStations config station.
Proof. apply checkStation_loop_filterStations_loop. Qed.

Lemma detail_station_delivered ev raw :
  detail_station ev = Some raw <-> (exists u, ev = (u, Parsed (mkResponse true (Detail raw)))).
Proof.
  split.
  - intros H. exists (fst ev). now apply detail_station_event.
  - intros [u ->]. reflexivity.
Qed.

(** Where the stations of a result come from: the raw stations the
    responses delivered that pass the filter, in the order of delivery. *)
Lemma result_origin w r s' :
  getData World fetch host config (initial w) = (Returned r, s') ->
  exists raws,
    contents s' (byDistance r)
    = map normalized (map (as_pushed host config) raws)
    /\ contents s' (byPrice r)
       = insertion_sort (sortByPrice config)
           (map normalized (map (as_pushed host config) raws))
    /\ (forall raw, In raw raws <->
          filterStations config raw = true
          /\ exists ev, In ev (trace s') /\ In raw (delivered ev)).
Proof.
  intros Hrun.
  destruct (cfg_onlyStations config) as [|id0 ids0] eqn:Hids.
  - destruct (getData_area_run _ _ _ Hids Hrun) as (ev & Hev & Ht & Hres).
    destruct (request_exn config ev) as [e|]; [discriminate|].
    destruct Hres as (r' & l & Hr & Hp & Hd & Hpr). injection Hr as <-.
    exists (List.filter (filterStations config) l).
    assert (Hid : forall raws, map (as_pushed host config) raws = raws).
    { intros raws. unfold as_pushed. rewrite Hids. simpl. apply map_id. }
    rewrite Hid. split; [exact Hd|]. split; [exact Hpr|].
    intros raw. rewrite filter_In, Ht. split.
    + intros [Hin Hk]. split; [exact Hk|]. exists ev. split; [now left|].
      unfold delivered. now rewrite Hp.
    + intros [Hk (ev' & [<-|[]] & Hin)]. split; [|exact Hk].
      unfold delivered in Hin. now rewrite Hp in Hin.
  - assert (Hm : cfg_onlyStations config <> []) by congruence.
    destruct (getData_detail_run _ _ _ Hm Hrun)
      as [(Hpass & _ & r' & Hr & Hd & Hpr)|(pre & ev & e & _ & _ & _ & He)];
      [|discriminate].
    injection Hr as <-.
    exists (List.filter (checkStation config) (omap detail_station (trace s'))).
    assert (Hloc : forall raws,
              map (as_pushed host config) raws = map (located host config) raws).
    { intros raws. unfold as_pushed. rewrite Hids. reflexivity. }
    rewrite Hloc. split; [exact Hd|]. split; [exact Hpr|].
    intros raw. rewrite filter_In, checkStation_filterStations.
    rewrite <- list_elem_of_In, list_elem_of_omap. split.
    + intros [(ev & Hev & Hs) Hk]. split; [exact Hk|]. exists ev.
      split; [now apply list_elem_of_In|].
      apply detail_station_delivered in Hs as [u ->]. now left.
    + intros [Hk (ev & Hev & Hin)]. split; [|exact Hk]. exists ev.
      split; [now apply list_elem_of_In|].
      rewrite List.Forall_forall in Hpass. specialize (Hpass ev Hev).
      destruct ev as [u [reason|[o b]]]; unfold delivered in Hin;
        unfold detail_exn in Hpass; unfold detail_station; simpl in *;
        [contradiction|].
      destruct o; simpl in *; [|discriminate].
      destruct b; try discriminate. now destruct Hin as [->|[]].
Qed.

Lemma normalized_pushed_fields raw :
  same_raw (normalized (as_pushed host config raw)) raw.
Proof.
  unfold as_pushed, same_raw.
  destruct (length (cfg_onlyStations config) <? 1)%nat; repeat split.
Qed.

(** X1: in area mode a call makes exactly one request, to the list URL,
    whatever comes of it; when it returns, [byDistance] holds the normalized
    stations of the response that pass the filter, in the order of the
    response, each with the [dist] of the endpoint as its [distance],
    unchanged. *)
Theorem area_mode_result : forall w out s',
  cfg_onlyStations config = [] ->
  getData World fetch host config (initial w) = (out, s') ->
  trace s' = [(generateUrl host config,
               fst (fetch (generateUrl host config) w))]
  /\ forall r, out = Returned r ->
       exists l,
         fst (fetch (generateUrl host config) w)
         = Parsed (mkResponse true (Stations l))
         /\ contents s' (byDistance r)
            = map normalized (List.filter (filterStations config) l)
         /\ map st_distance (contents s' (byDistance r))
            = map st_dist (List.filter (filterStations config) l).
Proof.
  intros w out s' Hm Hrun.
  destruct (getData_area_run _ _ _ Hm Hrun) as (ev & -> & Ht & Hres).
  split; [exact Ht|]. intros r ->.
  destruct (request_exn config _) as [e|]; [discriminate|].
  destruct Hres as (r' & l & Hr & Hp & Hd & _). injection Hr as <-.
  exists l. split; [exact Hp|]. split; [exact Hd|].
  rewrite Hd, map_map. reflexivity.
Qed.

(** X5: a call returns exactly when every one of its requests was answered
    in full: not failed, [ok], and with the property its mode reads. *)
Theorem returns_iff_all_answered : forall w out s',
  getData World fetch host config (initial w) = (out, s') ->
  (exists r, out = Returned r)
  <-> Forall (fun ev => request_exn config ev = None) (trace s').
Proof.
  intros w out s' Hrun. split.
  - intros [r ->]. apply List.Forall_forall. intros ev Hin.
    destruct (request_exn config ev) as [e|] eqn:He; [|reflexivity].
    destruct (failed_request_ends_call _ _ _ _ _ Hrun Hin He) as [Hc _].
    discriminate.
  - intros Hall. destruct out as [r|e]; [now exists r|].
    destruct (cfg_onlyStations config) as [|id0 ids0] eqn:Hids.
    + destruct (getData_area_run _ _ _ Hids Hrun) as (ev & _ & Ht & Hres).
      rewrite Ht in Hall. inversion Hall as [|? ? He _]; subst.
      rewrite He in Hres. destruct Hres as (r & _ & Hr & _). discriminate.
    + assert (Hm : cfg_onlyStations config <> []) by congruence.
      destruct (getData_detail_run _ _ _ Hm Hrun)
        as [(_ & _ & r & Hr & _)|(pre & ev & e0 & Ht & _ & He & _)];
        [discriminate|].
      rewrite Ht in Hall. apply Forall_app in Hall as [_ Hlast].
      inversion Hlast as [|? ? Hev _]; subst.
      rewrite (request_exn_detail _ Hm) in Hev. congruence.
Qed.

(** X6: no station of a result has a required fuel type with a price less
    than or equal to zero, and when fuel types are required and only open
    stations are wanted every station of the result is open; this holds of
    both sequences. *)
Theorem result_stations_pass_filter : forall w r s' x,
  getData World fetch host config (initial w) = (Returned r, s') ->
  In x (contents s' (byDistance r)) \/ In x (contents s' (byPrice r)) ->
  (forall t, In t (cfg_types config) ->
             PrimFloat.leb (price_of t x) 0%float = false)
  /\ (cfg_types config <> [] -> cfg_showOpenOnly config = true ->
      st_isOpen x = true).
Proof.
  intros w r s' x Hrun Hin.
  destruct (result_origin _ _ _ Hrun) as (raws & Hd & Hp & Hraws).
  assert (Hx : In x (map normalized (map (as_pushed host config) raws))).
  { destruct Hin as [Hin|Hin]; [now rewrite <- Hd|].
    rewrite Hp in Hin.
    eapply Permutation_in; [apply insertion_sort_perm|exact Hin]. }
  apply in_map_iff in Hx as [y [<- Hy]].
  apply in_map_iff in Hy as [raw [<- Hraw]].
  apply Hraws in Hraw as [Hk _].
  destruct (filterStations_kept _ _ Hk) as [Hprices Hopen].
  destruct (normalized_pushed_fields raw)
    as (_ & _ & _ & _ & _ & _ & _ & _ & _ & Ho & Hdi & He5 & He10).
  split.
  - intros t Ht. rewrite <- (Hprices t Ht).
    destruct t; unfold price_of; rewrite ?Hdi, ?He5, ?He10; reflexivity.
  - intros Hne Hflag. rewrite Ho. now apply Hopen.
Qed.

(** X7: every station of a result is a station some response of the call
    delivered, with its thirteen raw properties as delivered; its [prices]
    are its three price properties, its [address] is built from its postal
    code, place, street and house number, and its [distance] is its
    [dist]. *)
Theorem result_keeps_raw_fields : forall w r s' x,
  getData World fetch host config (initial w) = (Returned r, s') ->
  In x (contents s' (byDistance r)) ->
  exists ev raw,
    In ev (trace s') /\ In raw (delivered ev)
    /\ same_raw x raw
    /\ st_prices x = Some (mkPrices (st_diesel raw) (st_e5 raw) (st_e10 raw))
    /\ st_address x = Some (address_of raw)
    /\ st_distance x = st_dist x.
Proof.
  intros w r s' x Hrun Hin.
  destruct (result_origin _ _ _ Hrun) as (raws & Hd & _ & Hraws).
  rewrite Hd in Hin.
  apply in_map_iff in Hin as [y [<- Hy]].
  apply in_map_iff in Hy as [raw [<- Hraw]].
  apply Hraws in Hraw as [_ (ev & Hev & Hdel)].
  exists ev, raw. split; [exact Hev|]. split; [exact Hdel|].
  split; [apply normalized_pushed_fields|].
  unfold as_pushed.
  destruct (length (cfg_onlyStations config) <? 1)%nat; repeat split.
Qed.

(** X8: when no delivered station passes the filter (or none was delivered)
    a call that returns returns two empty sequences: an empty result is not
    an error. *)
Theorem nothing_kept_gives_empty_result : forall w r s',
  getData World fetch host config (initial w) = (Returned r, s') ->
  (forall ev raw, In ev (trace s') -> In raw (delivered ev) ->
                  filterStations config raw = false) ->
  contents s' (byDistance r) = [] /\ contents s' (byPrice r) = [].
Proof.
  intros w r s' Hrun Hnone.
  destruct (result_origin _ _ _ Hrun) as (raws & Hd & Hp & Hraws).
  assert (Hnil : raws = []).
  { destruct raws as [|raw raws']; [reflexivity|].
    destruct (proj1 (Hraws raw) (or_introl eq_refl)) as [Hk (ev & Hev & Hdel)].
    rewrite (Hnone ev raw Hev Hdel) in Hk. discriminate. }
  rewrite Hd, Hp, Hnil. split; reflexivity.
Qed.

End MoreRuns.

(** ** Station Filter: the list of required types *)

(** X10: the filter reads [config.types] as a set: with the same open-only
    flag, requiring fewer fuel types never excludes a station that was kept,
    and two lists with the same members give the same answer. *)
Theorem filterStations_types_as_set : forall c1 c2 station,
  cfg_showOpenOnly c1 = cfg_showOpenOnly c2 ->
  (incl (cfg_types c2) (cfg_types c1) ->
   filterStations c1 station = true -> filterStations c2 station = true)
  /\ ((forall t, In t (cfg_types c1) <-> In t (cfg_types c2)) ->
      filterStations c1 station = filterStations c2 station).
Proof.
  intros c1 c2 station Hflag.
  assert (Hmono : forall a b,
            cfg_showOpenOnly a = cfg_showOpenOnly b ->
            incl (cfg_types b) (cfg_types a) ->
            filterStations a station = true -> filterStations b station = true).
  { intros a b Hf Hincl Hk. unfold filterStations in *.
    destruct (filterStations_loop b station (cfg_types b)) eqn:Hb;
      [reflexivity|].
    apply filterStations_loop_false in Hb.
    assert (Ha : filterStations_loop a station (cfg_types a) = false);
      [|congruence].
    apply filterStations_loop_false.
    destruct Hb as [(t & Hin & Hp)|(Hne & Ho & Hs)].
    - left. exists t. split; [now apply Hincl|exact Hp].
    - right. repeat split; [|congruence|exact Hs].
      intros Hnil. destruct (cfg_types b) as [|t ts]; [now elim Hne|].
      specialize (Hincl t (or_introl eq_refl)). rewrite Hnil in Hincl.
      destruct Hincl. }
  split; [now apply Hmono|].
  intros Hsame.
  destruct (filterStations c1 station) eqn:H1.
  - symmetry. apply (Hmono c1 c2); auto. intros t. apply Hsame.
  - destruct (filterStations c2 station) eqn:H2; [|reflexivity].
    rewrite (Hmono c2 c1) in H1; auto. intros t. apply Hsame.
Qed.

(** ** Price Sorter: equal prices *)

(** X11: two stations that both lack a price on the sort field sort each
    before the other (the comparator returns [MIN_SAFE_INTEGER] both ways,
    never 0); two stations with the same finite price that is not zero
    compare as equal. *)
Theorem sortByPrice_equal_prices : forall config a b,
  (PrimFloat.eqb (price_of (cfg_sortBy config) a) 0%float = true ->
   PrimFloat.eqb (price_of (cfg_sortBy config) b) 0%float = true ->
   sortByPrice config a b = MIN_SAFE_INTEGER
   /\ sortByPrice config b a = MIN_SAFE_INTEGER)
  /\ (price_of (cfg_sortBy config) a = price_of (cfg_sortBy config) b ->
      isFinite (price_of (cfg_sortBy config) a) = true ->
      PrimFloat.eqb (price_of (cfg_sortBy config) a) 0%float = false ->
      sortByPrice config a b = 0%float /\ sortByPrice config b a = 0%float).
Proof.
  intros config a b. unfold sortByPrice. split.
  - intros Ha Hb. now rewrite Ha, Hb.
  - intros Heq Hfin Hnz. rewrite <- Heq, Hnz.
    split; now apply float_sub_self.
Qed.

(** ** Strings: the last characters of a string *)

Lemma substring_all s : substring 0 (String.length s) s = s.
Proof. induction s as [|c s IH]; simpl; [reflexivity|]. now rewrite IH. Qed.

Lemma substring_drop n : forall s,
  n <= String.length s ->
  exists p,
    String.length p = n
    /\ s = p +:+ substring n (String.length s - n) s.
Proof.
  induction n as [|n IH]; intros s Hn.
  - exists "". rewrite Nat.sub_0_r, substring_all. split; reflexivity.
  - destruct s as [|c s]; simpl in Hn; [lia|].
    destruct (IH s ltac:(lia)) as (p & Hp & Hs).
    exists (String c p). simpl. split; [now rewrite Hp|].
    change (String c s
            = String c (p +:+ substring n (String.length s - n) s)).
    now rewrite <- Hs.
Qed.

Lemma append_length s1 s2 :
  String.length (s1 +:+ s2) = String.length s1 + String.length s2.
Proof. induction s1 as [|c s1 IH]; simpl; [reflexivity|]. now rewrite IH. Qed.

(** [s.slice(-k)] is the end of [s]: its last [k] characters, or all of [s]
    when [s] is shorter. *)
Lemma String_slice_end s k :
  exists dropped,
    s = dropped +:+ String_slice s (Z.neg k)
    /\ String.length (String_slice s (Z.neg k))
       = Nat.min (Pos.to_nat k) (String.length s).
Proof.
  unfold String_slice.
  destruct (Z.ltb_spec (Z.neg k) 0) as [_|Hc]; [|lia].
  set (len := String.length s).
  set (from := Z.to_nat (Z.max (Z.of_nat len + Z.neg k) 0)).
  assert (Hfrom : from = len - Pos.to_nat k) by (unfold from; lia).
  replace (Z.to_nat (Z.of_nat len - Z.max (Z.of_nat len + Z.neg k) 0))
    with (len - from) by (unfold from; lia).
  destruct (substring_drop from s ltac:(unfold len in *; lia)) as (p & Hp & Hs).
  exists p. split; [exact Hs|].
  apply (f_equal String.length) in Hs. rewrite append_length, Hp in Hs.
  fold len in Hs. fold len. lia.
Qed.

(** X12: the postal part of an address is the end of ["0"] followed by the
    postal code: never more than five characters, and when the code has more
    than four digits, the characters before the last five (the added zero and
    leading digits of the code) are dropped. *)
Theorem address_postal_part : forall value,
  exists dropped,
    "0" +:+ N_toString (st_postCode value)
    = dropped +:+ String_slice ("0" +:+ N_toString (st_postCode value)) (-5)
    /\ String.length
         (String_slice ("0" +:+ N_toString (st_postCode value)) (-5))
       = Nat.min 5 (1 + String.length (N_toString (st_postCode value)))
    /\ address_of value
       = String_slice ("0" +:+ N_toString (st_postCode value)) (-5)
         +:+ " " +:+ st_place value +:+ " - " +:+ st_street value
         +:+ " " +:+ st_houseNumber value.
Proof.
  intros value.
  destruct (String_slice_end ("0" +:+ N_toString (st_postCode value)) 5)
    as (dropped & Hs & Hl).
  exists dropped. split; [exact Hs|]. split; [|reflexivity].
  rewrite Hl. reflexivity.
Qed.

(** ** URL Builder: properties *)

Lemma append_inv_tail s1 s2 t : s1 +:+ t = s2 +:+ t -> s1 = s2.
Proof.
  revert s2. induction s1 as [|c s1 IH]; intros s2 H.
  - destruct s2 as [|d s2]; [reflexivity|].
    apply (f_equal String.length) in H.
    rewrite !append_length in H. simpl in H. lia.
  - destruct s2 as [|d s2].
    + apply (f_equal String.length) in H.
      rewrite !append_length in H. simpl in H. lia.
    + simpl in H. injection H as -> H. f_equal. now apply IH.
Qed.

(** X13: the detail URL determines the station identifier (two identifiers
    never share a URL), and no detail URL is the URL of the area request. *)
Theorem detail_urls_distinct : forall h config id1 id2,
  (generateUrlDetail config id1 = generateUrlDetail config id2 -> id1 = id2)
  /\ generateUrl h config <> generateUrlDetail config id1.
Proof.
  intros h config id1 id2. split.
  - unfold generateUrlDetail. intros H.
    apply String.app_inj in H. apply String.app_inj in H.
    now apply append_inv_tail in H.
  - unfold generateUrl, generateUrlDetail, BASE_URL, BASE_URL_DETAIL.
    simpl. intros H. discriminate H.
Qed.

(** ** Normalizer and module: further properties *)

Section Store.
Context {World : Type}.
Implicit Types (s : State World).

(** X14: [normalizeStations] on an index past the end of the array, or on a
    reference that names no array, throws a [TypeError] and changes
    nothing. *)
Theorem normalizeStations_out_of_range : forall s value index stations,
  (heap s !! stations = None
   \/ exists l, heap s !! stations = Some l /\ length l <= index) ->
  normalizeStations World value index stations s = (Thrown TypeError, s).
Proof.
  intros s value index stations H.
  unfold normalizeStations, bind, elem_update, bind, read_array.
  destruct H as [->|(l & -> & Hlen)]; [reflexivity|].
  now rewrite (lookup_ge_None_2 l index Hlen).
Qed.

(** X15: [forEach(normalizeStations)] on an array never throws; it replaces
    every element by its normalization, in place and in order, and leaves
    the world and the trace as they were.  Normalizing the array a second
    time changes nothing. *)
Theorem forEach_normalizes_in_place : forall s a l,
  heap s !! a = Some l ->
  exists s',
    Array_forEach World a (normalizeStations World) s = (Returned tt, s')
    /\ contents s' a = map normalized l
    /\ length (contents s' a) = length l
    /\ world s' = world s /\ trace s' = trace s
    /\ Array_forEach World a (normalizeStations World) s' = (Returned tt, s').
Proof.
  intros s a l Ha.
  pose proof (lookup_lt_Some _ _ _ Ha) as Hlt.
  eexists. split; [exact (Array_forEach_normalize s a l Ha)|].
  assert (Hnew : <[a := map normalized l]> (heap s) !! a
                 = Some (map normalized l))
    by now apply list_lookup_insert_eq.
  repeat split.
  - apply contents_lookup. exact Hnew.
  - erewrite contents_lookup by exact Hnew. apply length_map.
  - erewrite Array_forEach_normalize by exact Hnew. simpl.
    rewrite list_insert_insert_eq, map_map.
    rewrite (map_ext (fun x => normalized (normalized x)) normalized);
      [reflexivity|].
    intros x. reflexivity.
Qed.

End Store.

(** ** Further witnesses on the sample data *)

Lemma call_eta {A B : Type} (c : A * B) : c = (fst c, snd c).
Proof. now destruct c. Qed.

Lemma area_mode_result_witness :
  trace (snd area_call)
  = [(generateUrl sample_host (sample_config [diesel] []),
      fst (scripted area_script
             (generateUrl sample_host (sample_config [diesel] [])) 0))]
  /\ exists l,
       fst (scripted area_script
              (generateUrl sample_host (sample_config [diesel] [])) 0)
       = Parsed (mkResponse true (Stations l))
       /\ contents (snd area_call) 1
          = map normalized
              (List.filter (filterStations (sample_config [diesel] [])) l)
       /\ map st_distance (contents (snd area_call) 1)
          = map st_dist
              (List.filter (filterStations (sample_config [diesel] [])) l).
Proof.
  destruct (area_mode_result (scripted area_script) sample_host
              (sample_config [diesel] []) 0 (fst area_call) (snd area_call)
              eq_refl (call_eta area_call)) as [Ht Hall].
  split; [exact Ht|].
  apply (Hall (mkResult ["diesel"; "e5"; "e10"] "km" "EUR" 2 1)).
  vm_compute. reflexivity.
Defined.

Lemma transport_failure_propagates_witness :
  fst failing_call = Thrown (Rejected "timeout")
  /\ exists earlier,
       trace (snd failing_call)
       = earlier
         ++ [(generateUrlDetail (sample_config [diesel] ["a"; "b"; "c"]) "b",
              Failed "timeout")].
Proof.
  apply (transport_failure_propagates
           (scripted [detail_ok station_a; Failed "timeout"]) sample_host
           (sample_config [diesel] ["a"; "b"; "c"]) 0).
  - apply call_eta.
  - vm_compute. right. left. reflexivity.
Defined.

Lemma missing_payload_throws_TypeError_witness :
  fst bare_call = Thrown TypeError
  /\ exists earlier,
       trace (snd bare_call)
       = earlier
         ++ [(generateUrl sample_host (sample_config [diesel] []),
              Parsed (mkResponse true NoBody))].
Proof.
  apply (missing_payload_throws_TypeError
           (scripted [Parsed (mkResponse true NoBody)]) sample_host
           (sample_config [diesel] []) 0).
  - apply call_eta.
  - vm_compute. left. reflexivity.
  - reflexivity.
  - exact I.
Defined.

Lemma throws_only_on_failed_request_witness :
  exists earlier ev,
    trace (snd failing_call) = earlier ++ [ev]
    /\ request_exn (sample_config [diesel] ["a"; "b"; "c"]) ev
       = Some (Rejected "timeout")
    /\ Forall (fun ev' =>
                 request_exn (sample_config [diesel] ["a"; "b"; "c"]) ev'
                 = None) earlier.
Proof.
  apply (throws_only_on_failed_request
           (scripted [detail_ok station_a; Failed "timeout"]) sample_host
           (sample_config [diesel] ["a"; "b"; "c"]) 0 (snd failing_call)).
  vm_compute. reflexivity.
Defined.

Lemma returns_iff_all_answered_witness :
  (exists r, fst area_call = Returned r)
  <-> Forall (fun ev => request_exn (sample_config [diesel] []) ev = None)
        (trace (snd area_call)).
Proof.
  apply (returns_iff_all_answered (scripted area_script) sample_host
           (sample_config [diesel] []) 0).
  apply call_eta.
Defined.

Lemma result_stations_pass_filter_witness :
  (forall t, In t (cfg_types (sample_config [diesel] [])) ->
     PrimFloat.leb
       (price_of t
          (normalized (raw_station "z" 99999 0%float 0%float true 1.25%float
                         (JSnumber 2.5%float)))) 0%float = false)
  /\ (cfg_types (sample_config [diesel] []) <> [] ->
      cfg_showOpenOnly (sample_config [diesel] []) = true ->
      st_isOpen
        (normalized (raw_station "z" 99999 0%float 0%float true 1.25%float
                       (JSnumber 2.5%float))) = true).
Proof.
  apply (result_stations_pass_filter (scripted area_script) sample_host
           (sample_config [diesel] []) 0
           (mkResult ["diesel"; "e5"; "e10"] "km" "EUR" 2 1)
           (snd area_call)).
  - vm_compute. reflexivity.
  - left. vm_compute. right. left. reflexivity.
Defined.

Lemma result_keeps_raw_fields_witness :
  exists ev raw,
    In ev (trace (snd detail_call)) /\ In raw (delivered ev)
    /\ same_raw (normalized (located sample_host
                               (sample_config [diesel] ["a"; "b"]) station_b))
         raw
    /\ st_prices (normalized (located sample_host
                                (sample_config [diesel] ["a"; "b"]) station_b))
       = Some (mkPrices (st_diesel raw) (st_e5 raw) (st_e10 raw))
    /\ st_address (normalized (located sample_host
                                 (sample_config [diesel] ["a"; "b"]) station_b))
       = Some (address_of raw)
    /\ st_distance (normalized (located sample_host
                                  (sample_config [diesel] ["a"; "b"]) station_b))
       = st_dist (normalized (located sample_host
                                (sample_config [diesel] ["a"; "b"]) station_b)).
Proof.
  apply (result_keeps_raw_fields (scripted detail_script) sample_host
           (sample_config [diesel] ["a"; "b"]) 0
           (mkResult ["diesel"; "e5"; "e10"] "km" "EUR" 1 0)
           (snd detail_call)).
  - vm_compute. reflexivity.
  - vm_compute. right. left. reflexivity.
Defined.

Lemma nothing_kept_gives_empty_result_witness :
  contents (snd closed_call) 0 = [] /\ contents (snd closed_call) 1 = [].
Proof.
  apply (nothing_kept_gives_empty_result
           (scripted [detail_ok (raw_station "c" 1067 0%float 0%float false
                                   1.5%float JSundefined)])
           sample_host (sample_config [diesel] ["c"]) 0
           (mkResult ["diesel"; "e5"; "e10"] "km" "EUR" 1 0)
           (snd closed_call)).
  - vm_compute. reflexivity.
  - intros ev raw Hev Hraw. vm_compute in Hev. destruct Hev as [<-|[]].
    vm_compute in Hraw. destruct Hraw as [<-|[]]. reflexivity.
Defined.

Lemma filterStations_types_as_set_witness :
  (filterStations (sample_config [diesel; e5] []) station_a = true ->
   filterStations (sample_config [e5] []) station_a = true)
  /\ filterStations (sample_config [diesel; e5] []) station_a
     = filterStations (sample_config [e5; diesel; e5] []) station_a.
Proof.
  split.
  - apply (filterStations_types_as_set (sample_config [diesel; e5] [])
             (sample_config [e5] []) station_a eq_refl).
    intros t [<-|[]]. right. left. reflexivity.
  - apply (filterStations_types_as_set (sample_config [diesel; e5] [])
             (sample_config [e5; diesel; e5] []) station_a eq_refl).
    intros t. simpl. tauto.
Defined.

Lemma sortByPrice_equal_prices_witness :
  (sortByPrice (sample_config [] [])
     (raw_station "m" 1067 0%float 0%float true 0%float JSundefined)
     (raw_station "n" 1067 0%float 0%float true 0%float JSundefined)
   = MIN_SAFE_INTEGER
   /\ sortByPrice (sample_config [] [])
        (raw_station "n" 1067 0%float 0%float true 0%float JSundefined)
        (raw_station "m" 1067 0%float 0%float true 0%float JSundefined)
      = MIN_SAFE_INTEGER)
  /\ (sortByPrice (sample_config [] []) station_a station_a = 0%float
      /\ sortByPrice (sample_config [] []) station_a station_a = 0%float).
Proof.
  split.
  - apply (sortByPrice_equal_prices (sample_config [] [])); reflexivity.
  - apply (sortByPrice_equal_prices (sample_config [] [])); reflexivity.
Defined.

Lemma detail_urls_distinct_witness :
  (generateUrlDetail (sample_config [] []) "a"
   = generateUrlDetail (sample_config [] []) "a" -> "a" = "a")
  /\ generateUrl sample_host (sample_config [] [])
     <> generateUrlDetail (sample_config [] []) "a".
Proof.
  exact (detail_urls_distinct sample_host (sample_config [] []) "a" "a").
Defined.

Lemma normalizeStations_out_of_range_witness :
  normalizeStations nat station_a 1 0 (mkState 0 [] [[station_a]])
  = (Thrown TypeError, mkState 0 [] [[station_a]])
  /\ normalizeStations nat station_a 0 3 (mkState 0 [] [[station_a]])
     = (Thrown TypeError, mkState 0 [] [[station_a]]).
Proof.
  split.
  - apply normalizeStations_out_of_range. right. exists [station_a].
    split; [reflexivity|]. simpl. lia.
  - apply normalizeStations_out_of_range. left. reflexivity.
Defined.

Lemma forEach_normalizes_in_place_witness :
  exists s',
    Array_forEach nat 0 (normalizeStations nat)
      (mkState 0 [] [[station_a; station_b]; [station_foo]])
    = (Returned tt, s')
    /\ contents s' 0 = map normalized [station_a; station_b]
    /\ length (contents s' 0) = 2
    /\ world s' = 0 /\ trace s' = []
    /\ Array_forEach nat 0 (normalizeStations nat) s' = (Returned tt, s').
Proof.
  apply (forEach_normalizes_in_place
           (mkState 0 [] [[station_a; station_b]; [station_foo]]) 0
           [station_a; station_b]).
  reflexivity.
Defined.

(** ** Price Sorter: the comparator never answers both ways *)

Lemma binary_round_positive s m e :
  SFltb (S754_zero false) (binary_round prec emax s m e) = true -> s = false.
Proof.
  unfold binary_round.
  destruct (shl_align m e _) as [mz ez].
  unfold binary_round_aux.
  destruct (shr_fexp prec emax (Z.pos mz) ez loc_Exact) as [mrs' e'].
  destruct (shr_fexp prec emax _ e' loc_Exact) as [mrs'' e''].
  destruct s; [|reflexivity]. intros H. exfalso.
  destruct (shr_m mrs''); [| destruct (_ <=? _)%Z |];
    unfold SFltb, SFcompare in H; discriminate H.
Qed.

Lemma binary_normalize_positive z e :
  SFltb (S754_zero false) (binary_normalize prec emax z e false) = true ->
  (0 < z)%Z.
Proof.
  destruct z as [|m|m]; simpl; intros H.
  - discriminate.
  - lia.
  - apply binary_round_positive in H. discriminate.
Qed.

Lemma SFsub_positive_antisym A B :
  SFltb (S754_zero false) (SF64sub A B) = true ->
  SFltb (S754_zero false) (SF64sub B A) = false.
Proof.
  unfold SF64sub.
  destruct A as [sa|sa| |sa ma ea], B as [sb|sb| |sb mb eb];
    try (unfold SFsub, SFltb, SFcompare;
         try destruct sa; try destruct sb; simpl;
         intros H; solve [discriminate H | reflexivity]).
  unfold SFsub. cbv zeta. intros H.
  apply binary_normalize_positive in H.
  destruct (SFltb (S754_zero false) (binary_normalize prec emax _ _ false))
    eqn:H'; [|reflexivity].
  apply binary_normalize_positive in H'.
  replace (IntDef.Z.min eb ea) with (IntDef.Z.min ea eb) in H'
    by apply Z.min_comm.
  change IntDef.Z.sub with Z.sub in *. lia.
Qed.

Lemma float_sub_positive_antisym (a b : float) :
  PrimFloat.ltb 0%float (PrimFloat.sub a b) = true ->
  PrimFloat.ltb 0%float (PrimFloat.sub b a) = false.
Proof.
  rewrite !ltb_spec, !sub_spec. apply SFsub_positive_antisym.
Qed.

Lemma sortByPrice_antisym config a b :
  PrimFloat.ltb 0%float (sortByPrice config a b) = true ->
  PrimFloat.ltb 0%float (sortByPrice config b a) = false.
Proof.
  unfold sortByPrice.
  destruct (PrimFloat.eqb (price_of (cfg_sortBy config) b) 0%float) eqn:Hb.
  - intros H. discriminate H.
  - destruct (PrimFloat.eqb (price_of (cfg_sortBy config) a) 0%float) eqn:Ha.
    + intros _. reflexivity.
    + apply float_sub_positive_antisym.
Qed.

(** X22: the comparator never says of two stations both that the first goes
    after the second and that the second goes after the first. *)
Theorem sortByPrice_never_both_ways : forall config a b,
  PrimFloat.ltb 0%float (sortByPrice config a b) = true ->
  PrimFloat.ltb 0%float (sortByPrice config b a) = false.
Proof. intros config a b. apply sortByPrice_antisym. Qed.

Lemma sortByPrice_never_both_ways_witness :
  PrimFloat.ltb 0%float
    (sortByPrice (sample_config [] []) station_b station_a) = false.
Proof.
  apply (sortByPrice_never_both_ways (sample_config [] []) station_a station_b).
  reflexivity.
Defined.

(** ** Number.prototype.toFixed: the shape of the numeral *)

Lemma substring_length n : forall m s,
  n + m <= String.length s -> String.length (substring n m s) = m.
Proof.
  induction n as [|n IH]; intros m s H.
  - revert s H. induction m as [|m IHm]; intros s H.
    + now destruct s.
    + destruct s as [|c s]; simpl in *; [lia|]. rewrite IHm; lia.
  - destruct s as [|c s]; simpl in *; [lia|]. apply IH. lia.
Qed.

Lemma zeros_length k : String.length (zeros k) = k.
Proof.
  induction k as [|k IH]; [reflexivity|].
  cbn [zeros]. rewrite append_length, IH. reflexivity.
Qed.

Lemma N_toString_nonempty n : 1 <= String.length (N_toString n).
Proof.
  unfold N_toString. destruct n as [|p]; [simpl; lia|].
  simpl. pose proof (Unsigned.to_uint_nonnil p) as Hp.
  destruct (Pos.to_uint p); simpl; try lia. congruence.
Qed.

Lemma all_digits_append s1 s2 :
  all_digits (s1 +:+ s2) = all_digits s1 && all_digits s2.
Proof.
  induction s1 as [|c s1 IH]; [reflexivity|].
  change (String c s1 +:+ s2) with (String c (s1 +:+ s2)).
  cbn [all_digits]. rewrite IH. now rewrite andb_assoc.
Qed.

Lemma all_digits_substring n : forall m s,
  all_digits s = true -> all_digits (substring n m s) = true.
Proof.
  induction n as [|n IH]; intros m s H.
  - revert s H. induction m as [|m IHm]; intros s H.
    + now destruct s.
    + destruct s as [|c s]; [reflexivity|].
      cbn [substring all_digits] in *.
      apply andb_true_iff in H as [Hc Hs]. now rewrite Hc, IHm.
  - destruct s as [|c s]; [reflexivity|].
    cbn [substring all_digits] in *.
    apply andb_true_iff in H as [_ Hs]. now apply IH.
Qed.

Lemma all_digits_zeros k : all_digits (zeros k) = true.
Proof.
  induction k as [|k IH]; [reflexivity|].
  cbn [zeros]. now rewrite all_digits_append, IH.
Qed.

Lemma all_digits_string_of_uint d :
  all_digits (NilEmpty.string_of_uint d) = true.
Proof. induction d; simpl; auto. Qed.

Lemma all_digits_N_toString n : all_digits (N_toString n) = true.
Proof. apply all_digits_string_of_uint. Qed.

Lemma fixed_digits_shape n f :
  exists whole fraction,
    fixed_digits n (S f) = whole +:+ "." +:+ fraction
    /\ 1 <= String.length whole
    /\ all_digits whole = true
    /\ String.length fraction = S f
    /\ all_digits fraction = true.
Proof.
  unfold fixed_digits.
  set (m := N_toString (Z.to_N n)).
  pose proof (N_toString_nonempty (Z.to_N n)) as Hm. fold m in Hm.
  pose proof (all_digits_N_toString (Z.to_N n)) as Hd. fold m in Hd.
  set (m' := if (String.length m <=? S f)%nat
             then zeros (S f + 1 - String.length m) +:+ m else m).
  assert (Hlen : S f + 1 <= String.length m').
  { unfold m'. destruct (Nat.leb_spec (String.length m) (S f)).
    - rewrite append_length, zeros_length. lia.
    - lia. }
  assert (Hd' : all_digits m' = true).
  { unfold m'. destruct (String.length m <=? S f)%nat; [|exact Hd].
    now rewrite all_digits_append, all_digits_zeros. }
  cbv zeta.
  exists (substring 0 (String.length m' - S f) m'),
         (substring (String.length m' - S f) (S f) m').
  split; [reflexivity|].
  rewrite !substring_length by lia.
  repeat split; try lia; now apply all_digits_substring.
Qed.

Lemma toFixed_shape : forall h x f,
  isFinite x = true ->
  PrimFloat.leb 1e21%float (PrimFloat.abs x) = false ->
  exists sign whole fraction,
    toFixed h x (S f) = sign +:+ whole +:+ "." +:+ fraction
    /\ (sign = "" \/ sign = "-")
    /\ 1 <= String.length whole
    /\ all_digits whole = true
    /\ String.length fraction = S f
    /\ all_digits fraction = true.
Proof.
  intros h x f Hfin Hbig. unfold toFixed. unfold isFinite in Hfin.
  destruct (Prim2SF x) as [s|s| |s m e]; try discriminate.
  - destruct (fixed_digits_shape 0 f)
      as (whole & fraction & Heq & Hw & Hwd & Hf & Hfd).
    exists "", whole, fraction. rewrite Heq. auto 10.
  - rewrite Hbig. cbv zeta.
    destruct (fixed_digits_shape (nearest_scaled m e (S f)) f)
      as (whole & fraction & Heq & Hw & Hwd & Hf & Hfd).
    exists (if s then "-" else ""), whole, fraction. rewrite Heq.
    split; [reflexivity|]. split; [destruct s; auto|]. auto.
Qed.

(** X23: in detail mode the [dist] and the [distance] of every station of
    the result are the string that [toFixed(1)] makes of [getDistance] from
    the station's own [lat] and [lng] to the [lat] and [lng] of the
    configuration; whenever that distance is a finite number below 1e21, the
    string is made of an optional minus sign, at least one decimal digit, a
    point and exactly one more decimal digit. *)
Theorem detail_distance_one_decimal :
  forall (World : Type) fetch host config (w : World) r s' x,
  cfg_onlyStations config <> [] ->
  getData World fetch host config (initial w) = (Returned r, s') ->
  In x (contents s' (byDistance r)) ->
  let d := getDistance (H := float_ops host)
             (mkPos (st_lat x) (st_lng x))
             (mkPos (cfg_lat config) (cfg_lng config)) in
  st_dist x = JSstring (toFixed host d 1)
  /\ st_distance x = JSstring (toFixed host d 1)
  /\ (isFinite d = true ->
      PrimFloat.leb 1e21%float (PrimFloat.abs d) = false ->
      exists sign whole fraction,
        toFixed host d 1 = sign +:+ whole +:+ "." +:+ fraction
        /\ (sign = "" \/ sign = "-")
        /\ 1 <= String.length whole
        /\ all_digits whole = true
        /\ String.length fraction = 1
        /\ all_digits fraction = true).
Proof.
  intros World fetch host config w r s' x Hm Hrun Hin.
  destruct (result_origin fetch host config _ _ _ Hrun) as (raws & Hd & _ & _).
  rewrite Hd in Hin.
  apply in_map_iff in Hin as [y [<- Hy]].
  apply in_map_iff in Hy as [raw [<- _]].
  unfold as_pushed. rewrite (mode_test_detail config Hm).
  cbv zeta. split; [reflexivity|]. split; [reflexivity|].
  intros Hfin Hbig. exact (toFixed_shape host _ 0 Hfin Hbig).
Qed.

Lemma detail_distance_one_decimal_witness :
  st_dist (normalized (located rounding_host (berlin_config [diesel] ["n"])
                         station_near)) = JSstring "2.3"
  /\ st_distance (normalized (located rounding_host
                                (berlin_config [diesel] ["n"]) station_near))
     = JSstring "2.3"
  /\ exists sign whole fraction,
       "2.3" = sign +:+ whole +:+ "." +:+ fraction
       /\ (sign = "" \/ sign = "-")
       /\ 1 <= String.length whole
       /\ all_digits whole = true
       /\ String.length fraction = 1
       /\ all_digits fraction = true.
Proof.
  destruct (detail_distance_one_decimal nat (scripted [detail_ok station_near])
              rounding_host (berlin_config [diesel] ["n"]) 0
              (mkResult ["diesel"; "e5"; "e10"] "km" "EUR" 1 0)
              (snd near_call)
              (normalized (located rounding_host (berlin_config [diesel] ["n"])
                             station_near)))
    as (H1 & H2 & H3).
  - discriminate.
  - vm_compute. reflexivity.
  - vm_compute. left. reflexivity.
  - split; [exact H1|]. split; [exact H2|].
    apply H3; vm_compute; reflexivity.
Defined.
